(** * Appointment endpoints of the hospital backend

    A shallow embedding of [backend/app/api/endpoints/appointments.py]
    together with the parts of [backend/app/models] and
    [backend/app/schemas] that the five endpoints read:

    - the mapped classes [User], [Doctor] and [Appointment] as records,
      the tables as lists of rows in storage order;
    - the SQLAlchemy session as a state-and-exception monad over the
      database, so that a raised exception leaves the state it found;
    - the configuration of the mappers from the relationships and foreign
      keys that the models declare, which every endpoint triggers with its
      first ORM statement; the endpoint functions themselves are modelled
      as they run once that configuration has succeeded, and the module
      [Mapped] puts the configuration in front of them;
    - Python attribute access ([getattr], [hasattr]) on the objects the
      endpoints probe dynamically;
    - pydantic validation of the JSON bodies into [AppointmentCreate] and
      [AppointmentUpdate]. *)

From Stdlib Require Import ZArith List String Bool Lia.
From Stdlib Require Import Floats.SpecFloat.
Import ListNotations.

Local Open Scope string_scope.
Local Open Scope Z_scope.

(** ** Scalars *)

(** [datetime] values are points on the UTC time line (microseconds). *)
Definition datetime : Type := Z.

(** A [Float] column holds an IEEE 754 binary64 value; the endpoints store
    and return such values and never compute with them. *)
Definition float : Type := spec_float.

(** The literal [0.0]. *)
Definition float_zero : float := S754_zero false.

(** models/appointment.py, [class AppointmentStatus(str, enum.Enum)]. *)
Inductive AppointmentStatus : Type :=
| SCHEDULED | CONFIRMED | IN_PROGRESS | COMPLETED | CANCELLED | NO_SHOW.

(** models/appointment.py, [class AppointmentType(str, enum.Enum)]. *)
Inductive AppointmentType : Type :=
| CONSULTATION | FOLLOW_UP | EMERGENCY | TELECONSULTATION | PROCEDURE.

Definition AppointmentStatus_value (s : AppointmentStatus) : string :=
  match s with
  | SCHEDULED => "scheduled"
  | CONFIRMED => "confirmed"
  | IN_PROGRESS => "in_progress"
  | COMPLETED => "completed"
  | CANCELLED => "cancelled"
  | NO_SHOW => "no_show"
  end.

Definition AppointmentType_value (t : AppointmentType) : string :=
  match t with
  | CONSULTATION => "consultation"
  | FOLLOW_UP => "follow_up"
  | EMERGENCY => "emergency"
  | TELECONSULTATION => "teleconsultation"
  | PROCEDURE => "procedure"
  end.

Definition all_AppointmentStatus : list AppointmentStatus :=
  [SCHEDULED; CONFIRMED; IN_PROGRESS; COMPLETED; CANCELLED; NO_SHOW].

Definition all_AppointmentType : list AppointmentType :=
  [CONSULTATION; FOLLOW_UP; EMERGENCY; TELECONSULTATION; PROCEDURE].

Definition AppointmentStatus_eqb (a b : AppointmentStatus) : bool :=
  String.eqb (AppointmentStatus_value a) (AppointmentStatus_value b).

Definition option_eqb {A : Type} (eqb : A -> A -> bool) (x y : option A) : bool :=
  match x, y with
  | None, None => true
  | Some a, Some b => eqb a b
  | _, _ => false
  end.

(** ** Mapped classes *)

(** models/user.py, [class User(Base)]: the columns the endpoints and the
    identity layer read. *)
Module User.
Record t : Type := mk {
  id : Z;
  email : string;
  full_name : string;
  is_active : bool;
  is_superuser : bool;
  role : string
}.
End User.

(** models/doctor.py, [class Doctor(Base)]: the key columns and the
    profile data. [user_id] is the foreign key that carries the
    relationship [Doctor.user]. *)
Module Doctor.
Record t : Type := mk {
  id : Z;
  user_id : Z;
  license_number : string;
  specialization : string
}.
End Doctor.

(** models/appointment.py, [class Appointment(Base)]: every column.
    A column declared without [nullable=False] holds [None] when it is
    NULL. [scheduled_date] is NOT NULL in the table; the attribute of a
    loaded object can still be assigned [None] before the flush. *)
Module Appointment.
Record t : Type := mk {
  id : Z;
  patient_id : Z;
  doctor_id : Z;
  appointment_type : option AppointmentType;
  status : option AppointmentStatus;
  scheduled_date : option datetime;
  duration_minutes : option Z;
  actual_start_time : option datetime;
  actual_end_time : option datetime;
  is_virtual : option bool;
  meeting_link : option string;
  location : option string;
  reason_for_visit : option string;
  symptoms : option string;
  notes : option string;
  consultation_fee : option float;
  payment_status : option string;
  follow_up_required : option bool;
  follow_up_date : option datetime;
  ai_risk_score : option float;
  ai_recommendations : option string;
  created_at : option datetime;
  updated_at : option datetime
}.

Definition set_status (v : option AppointmentStatus) (a : t) : t :=
  mk (id a) (patient_id a) (doctor_id a) (appointment_type a) v
     (scheduled_date a) (duration_minutes a) (actual_start_time a)
     (actual_end_time a) (is_virtual a) (meeting_link a) (location a)
     (reason_for_visit a) (symptoms a) (notes a) (consultation_fee a)
     (payment_status a) (follow_up_required a) (follow_up_date a)
     (ai_risk_score a) (ai_recommendations a) (created_at a) (updated_at a).

Definition set_scheduled_date (v : option datetime) (a : t) : t :=
  mk (id a) (patient_id a) (doctor_id a) (appointment_type a) (status a)
     v (duration_minutes a) (actual_start_time a)
     (actual_end_time a) (is_virtual a) (meeting_link a) (location a)
     (reason_for_visit a) (symptoms a) (notes a) (consultation_fee a)
     (payment_status a) (follow_up_required a) (follow_up_date a)
     (ai_risk_score a) (ai_recommendations a) (created_at a) (updated_at a).

Definition set_duration_minutes (v : option Z) (a : t) : t :=
  mk (id a) (patient_id a) (doctor_id a) (appointment_type a) (status a)
     (scheduled_date a) v (actual_start_time a)
     (actual_end_time a) (is_virtual a) (meeting_link a) (location a)
     (reason_for_visit a) (symptoms a) (notes a) (consultation_fee a)
     (payment_status a) (follow_up_required a) (follow_up_date a)
     (ai_risk_score a) (ai_recommendations a) (created_at a) (updated_at a).

Definition set_is_virtual (v : option bool) (a : t) : t :=
  mk (id a) (patient_id a) (doctor_id a) (appointment_type a) (status a)
     (scheduled_date a) (duration_minutes a) (actual_start_time a)
     (actual_end_time a) v (meeting_link a) (location a)
     (reason_for_visit a) (symptoms a) (notes a) (consultation_fee a)
     (payment_status a) (follow_up_required a) (follow_up_date a)
     (ai_risk_score a) (ai_recommendations a) (created_at a) (updated_at a).

Definition set_meeting_link (v : option string) (a : t) : t :=
  mk (id a) (patient_id a) (doctor_id a) (appointment_type a) (status a)
     (scheduled_date a) (duration_minutes a) (actual_start_time a)
     (actual_end_time a) (is_virtual a) v (location a)
     (reason_for_visit a) (symptoms a) (notes a) (consultation_fee a)
     (payment_status a) (follow_up_required a) (follow_up_date a)
     (ai_risk_score a) (ai_recommendations a) (created_at a) (updated_at a).

Definition set_location (v : option string) (a : t) : t :=
  mk (id a) (patient_id a) (doctor_id a) (appointment_type a) (status a)
     (scheduled_date a) (duration_minutes a) (actual_start_time a)
     (actual_end_time a) (is_virtual a) (meeting_link a) v
     (reason_for_visit a) (symptoms a) (notes a) (consultation_fee a)
     (payment_status a) (follow_up_required a) (follow_up_date a)
     (ai_risk_score a) (ai_recommendations a) (created_at a) (updated_at a).

Definition set_reason_for_visit (v : option string) (a : t) : t :=
  mk (id a) (patient_id a) (doctor_id a) (appointment_type a) (status a)
     (scheduled_date a) (duration_minutes a) (actual_start_time a)
     (actual_end_time a) (is_virtual a) (meeting_link a) (location a)
     v (symptoms a) (notes a) (consultation_fee a)
     (payment_status a) (follow_up_required a) (follow_up_date a)
     (ai_risk_score a) (ai_recommendations a) (created_at a) (updated_at a).

Definition set_symptoms (v : option string) (a : t) : t :=
  mk (id a) (patient_id a) (doctor_id a) (appointment_type a) (status a)
     (scheduled_date a) (duration_minutes a) (actual_start_time a)
     (actual_end_time a) (is_virtual a) (meeting_link a) (location a)
     (reason_for_visit a) v (notes a) (consultation_fee a)
     (payment_status a) (follow_up_required a) (follow_up_date a)
     (ai_risk_score a) (ai_recommendations a) (created_at a) (updated_at a).

Definition set_notes (v : option string) (a : t) : t :=
  mk (id a) (patient_id a) (doctor_id a) (appointment_type a) (status a)
     (scheduled_date a) (duration_minutes a) (actual_start_time a)
     (actual_end_time a) (is_virtual a) (meeting_link a) (location a)
     (reason_for_visit a) (symptoms a) v (consultation_fee a)
     (payment_status a) (follow_up_required a) (follow_up_date a)
     (ai_risk_score a) (ai_recommendations a) (created_at a) (updated_at a).

Definition set_updated_at (v : option datetime) (a : t) : t :=
  mk (id a) (patient_id a) (doctor_id a) (appointment_type a) (status a)
     (scheduled_date a) (duration_minutes a) (actual_start_time a)
     (actual_end_time a) (is_virtual a) (meeting_link a) (location a)
     (reason_for_visit a) (symptoms a) (notes a) (consultation_fee a)
     (payment_status a) (follow_up_required a) (follow_up_date a)
     (ai_risk_score a) (ai_recommendations a) (created_at a) v.
End Appointment.

(** ** The database and the session monad *)

(** The tables the endpoints touch. [appointment_id_seq] is the next value
    of the primary-key sequence of [appointment]. *)
Record DB : Type := mkDB {
  doctor : list Doctor.t;
  appointment : list Appointment.t;
  appointment_id_seq : Z
}.

(** What an endpoint can raise. [HTTPException] is FastAPI's; the others
    escape the endpoint function (a 500 for the caller, 422 for
    [RequestValidationError]). The last two are what SQLAlchemy raises when
    it cannot find the join of a declared relationship. *)
Inductive exn : Type :=
| HTTPException (status_code : Z) (detail : string)
| AttributeError (type_name attribute : string)
| RequestValidationError (loc : string)
| IntegrityError (constraint : string)
| DataError (message : string)
| NoForeignKeysError (relationship : string)
| AmbiguousForeignKeysError (relationship : string).

Definition HTTP_404_NOT_FOUND : Z := 404.
Definition HTTP_403_FORBIDDEN : Z := 403.

Definition NotFound : exn := HTTPException HTTP_404_NOT_FOUND "Appointment not found".
Definition Forbidden : exn := HTTPException HTTP_403_FORBIDDEN "Not enough permissions".

(** A computation runs against the database and ends with a value or an
    exception, and with the database as it left it. *)
Definition M (A : Type) : Type := DB -> (exn + A) * DB.

Definition ret {A : Type} (a : A) : M A := fun db => (inr a, db).

Definition raise {A : Type} (e : exn) : M A := fun db => (inl e, db).

Definition bind {A B : Type} (m : M A) (f : A -> M B) : M B :=
  fun db =>
    match m db with
    | (inr a, db') => f a db'
    | (inl e, db') => (inl e, db')
    end.

Definition get_db : M DB := fun db => (inr db, db).

Definition put_db (db' : DB) : M unit := fun _ => (inr tt, db').

Declare Scope session_scope.
Delimit Scope session_scope with session.
Notation "x <- m ;; k" := (bind m (fun x => k))
  (at level 61, m at next level, right associativity) : session_scope.
Notation "m ;;; k" := (bind m (fun _ => k))
  (at level 61, right associativity) : session_scope.
Local Open Scope session_scope.

(** Python's short-circuit [and] / [or] / [not] on conditions whose
    evaluation may raise. *)
Definition py_and (a b : M bool) : M bool :=
  x <- a ;; if x then b else ret false.

Definition py_or (a b : M bool) : M bool :=
  x <- a ;; if x then ret true else b.

Definition py_not (a : M bool) : M bool :=
  x <- a ;; ret (negb x).

(** ** Python objects and attribute access *)

(** The Python values that the endpoints reach through dynamic attribute
    access. [PyInstrumentedList] is the collection class SQLAlchemy uses
    for a relationship that is loaded as a list. *)
Inductive pyvalue : Type :=
| PyNone
| PyBool (b : bool)
| PyInt (z : Z)
| PyStr (s : string)
| PyUser (u : User.t)
| PyDoctor (d : Doctor.t)
| PyInstrumentedList (l : list Doctor.t).

Definition type_name (v : pyvalue) : string :=
  match v with
  | PyNone => "NoneType"
  | PyBool _ => "bool"
  | PyInt _ => "int"
  | PyStr _ => "str"
  | PyUser _ => "User"
  | PyDoctor _ => "Doctor"
  | PyInstrumentedList _ => "InstrumentedList"
  end.

(** The rows of [doctor] whose [user_id] is the user's id. *)
Definition doctors_of (u : User.t) (db : DB) : list Doctor.t :=
  filter (fun d => Doctor.user_id d =? User.id u) (doctor db).

(** [getattr(o, name)] for the attributes modelled here.

    models/doctor.py declares
    [user = relationship("User", backref="doctor_profile")] on [Doctor],
    the side that holds the foreign key [user_id]. [Doctor.user] is
    therefore many-to-one, and the backref puts the reverse, one-to-many
    relationship on the class [User] (no [uselist=False] is given):
    [user.doctor_profile] is present on every [User] instance and
    evaluates to the list of the [Doctor] rows that reference the user,
    the empty list when there is none. A list has no attribute [id]. *)
Definition getattr (o : pyvalue) (name : string) : M pyvalue :=
  match o with
  | PyUser u =>
      if String.eqb name "id" then ret (PyInt (User.id u))
      else if String.eqb name "email" then ret (PyStr (User.email u))
      else if String.eqb name "full_name" then ret (PyStr (User.full_name u))
      else if String.eqb name "is_active" then ret (PyBool (User.is_active u))
      else if String.eqb name "is_superuser" then ret (PyBool (User.is_superuser u))
      else if String.eqb name "role" then ret (PyStr (User.role u))
      else if String.eqb name "doctor_profile" then
        db <- get_db ;; ret (PyInstrumentedList (doctors_of u db))
      else raise (AttributeError "User" name)
  | PyDoctor d =>
      if String.eqb name "id" then ret (PyInt (Doctor.id d))
      else if String.eqb name "user_id" then ret (PyInt (Doctor.user_id d))
      else if String.eqb name "license_number" then ret (PyStr (Doctor.license_number d))
      else if String.eqb name "specialization" then ret (PyStr (Doctor.specialization d))
      else raise (AttributeError "Doctor" name)
  | _ => raise (AttributeError (type_name o) name)
  end.

(** [hasattr(o, name)]: calls [getattr] and answers [False] exactly when
    that raises [AttributeError]; any other exception propagates. *)
Definition hasattr (o : pyvalue) (name : string) : M bool :=
  fun db =>
    match getattr o name db with
    | (inr _, db') => (inr true, db')
    | (inl (AttributeError _ _), db') => (inr false, db')
    | (inl e, db') => (inl e, db')
    end.

(** Python [==] on the scalar values; [bool] is a subclass of [int]. *)
Definition py_eq (a b : pyvalue) : bool :=
  match a, b with
  | PyNone, PyNone => true
  | PyInt x, PyInt y => x =? y
  | PyBool x, PyBool y => Bool.eqb x y
  | PyInt x, PyBool y => x =? Z.b2z y
  | PyBool x, PyInt y => Z.b2z x =? y
  | PyStr x, PyStr y => String.eqb x y
  | _, _ => false
  end.

Definition py_ne (a b : pyvalue) : bool := negb (py_eq a b).

(** ** Queries on the [appointment] table *)

Inductive column : Type :=
| Appointment_id
| Appointment_patient_id
| Appointment_doctor_id.

Definition column_value (c : column) (row : Appointment.t) : Z :=
  match c with
  | Appointment_id => Appointment.id row
  | Appointment_patient_id => Appointment.patient_id row
  | Appointment_doctor_id => Appointment.doctor_id row
  end.

(** The arguments given to [Query.filter]: a column compared with a bound
    Python value, or a Python boolean (which SQLAlchemy coerces to the SQL
    constant). *)
Inductive criterion : Type :=
| ColumnEq (c : column) (v : pyvalue)
| Literal (b : bool).

Definition criterion_holds (c : criterion) (row : Appointment.t) : bool :=
  match c with
  | ColumnEq col v => py_eq (PyInt (column_value col row)) v
  | Literal b => b
  end.

(** The queries of a session whose mappers are configured (see
    [configure_mappers] for the step before). *)
Module Query.
Record t : Type := mk {
  whereclause : list criterion;
  offset_clause : option Z;
  limit_clause : option Z
}.

(** [db.query(Appointment)] *)
Definition Appointment : t := mk [] None None.

Definition filter (q : t) (c : criterion) : t :=
  mk (whereclause q ++ [c]) (offset_clause q) (limit_clause q).

Definition offset (q : t) (n : Z) : t :=
  mk (whereclause q) (Some n) (limit_clause q).

Definition limit (q : t) (n : Z) : t :=
  mk (whereclause q) (offset_clause q) (Some n).

Definition matching (q : t) (rows : list Appointment.t) : list Appointment.t :=
  List.filter (fun row => forallb (fun c => criterion_holds c row) (whereclause q)) rows.

Definition is_negative (n : option Z) : bool :=
  match n with Some z => z <? 0 | None => false end.

Definition apply_offset (n : option Z) (rows : list Appointment.t) : list Appointment.t :=
  match n with Some z => skipn (Z.to_nat z) rows | None => rows end.

Definition apply_limit (n : option Z) (rows : list Appointment.t) : list Appointment.t :=
  match n with Some z => firstn (Z.to_nat z) rows | None => rows end.

(** The SELECT: WHERE, then OFFSET, then LIMIT. The endpoints give no
    ORDER BY, so the code does not determine the order of the rows; the
    model takes the order of the list. The server (PostgreSQL, see
    core/config.py) rejects a negative OFFSET or LIMIT. *)
Definition all (q : t) : M (list Appointment.t) :=
  if is_negative (offset_clause q) then raise (DataError "OFFSET must not be negative")
  else if is_negative (limit_clause q) then raise (DataError "LIMIT must not be negative")
  else
    db <- get_db ;;
    ret (apply_limit (limit_clause q)
           (apply_offset (offset_clause q) (matching q (appointment db)))).

(** [.first()]: the query with LIMIT 1; the row, or [None]. *)
Definition first (q : t) : M (option Appointment.t) :=
  rows <- all (limit q 1) ;;
  ret (match rows with [] => None | row :: _ => Some row end).
End Query.

(** ** Session: INSERT, UPDATE, DELETE on commit *)

(** The writes of a session whose mappers are configured. Integer
    columns are unbounded integers here, timestamps are instants, and an
    updated row keeps its place in the list. *)
Module Session.
(** A [doctor_id] must reference a row of [doctor]. ([patient_id] is the
    id of the authenticated user, a row of [user] by construction.) *)
Definition doctor_exists (doctor_id : Z) (db : DB) : bool :=
  existsb (fun d => Doctor.id d =? doctor_id) (doctor db).

(** [db.add(obj); db.commit(); db.refresh(obj)] for a new object. The
    object is given up to what the flush supplies: the primary key from
    the sequence and the time for the [datetime.utcnow] defaults. *)
Definition add_commit_refresh_new (obj : Z -> datetime -> Appointment.t)
    (now : datetime) : M Appointment.t :=
  db <- get_db ;;
  let row := obj (appointment_id_seq db) now in
  match Appointment.scheduled_date row with
  | None => raise (IntegrityError "appointment.scheduled_date NOT NULL")
  | Some _ =>
      if doctor_exists (Appointment.doctor_id row) db then
        put_db (mkDB (doctor db) (appointment db ++ [row]) (appointment_id_seq db + 1)) ;;;
        ret row
      else raise (IntegrityError "appointment.doctor_id FOREIGN KEY")
  end.

(** The attributes of a loaded object that differ from the loaded
    values, among those the update endpoint can assign: the flush emits
    an UPDATE only when there is one. *)
Definition modified (loaded obj : Appointment.t) : bool :=
  negb (option_eqb AppointmentStatus_eqb (Appointment.status loaded) (Appointment.status obj)
        && option_eqb Z.eqb (Appointment.scheduled_date loaded) (Appointment.scheduled_date obj)
        && option_eqb Z.eqb (Appointment.duration_minutes loaded) (Appointment.duration_minutes obj)
        && option_eqb Bool.eqb (Appointment.is_virtual loaded) (Appointment.is_virtual obj)
        && option_eqb String.eqb (Appointment.reason_for_visit loaded) (Appointment.reason_for_visit obj)
        && option_eqb String.eqb (Appointment.symptoms loaded) (Appointment.symptoms obj)
        && option_eqb String.eqb (Appointment.notes loaded) (Appointment.notes obj)
        && option_eqb String.eqb (Appointment.meeting_link loaded) (Appointment.meeting_link obj)
        && option_eqb String.eqb (Appointment.location loaded) (Appointment.location obj)).

Definition replace_row (row : Appointment.t) (rows : list Appointment.t) : list Appointment.t :=
  map (fun r => if Appointment.id r =? Appointment.id row then row else r) rows.

(** [db.add(obj); db.commit(); db.refresh(obj)] for an object that was
    loaded as [loaded] and then assigned to. The UPDATE also fires
    [onupdate=datetime.utcnow] of [updated_at]. *)
Definition add_commit_refresh (loaded obj : Appointment.t)
    (now : datetime) : M Appointment.t :=
  if modified loaded obj then
    match Appointment.scheduled_date obj with
    | None => raise (IntegrityError "appointment.scheduled_date NOT NULL")
    | Some _ =>
        let row := Appointment.set_updated_at (Some now) obj in
        db <- get_db ;;
        put_db (mkDB (doctor db) (replace_row row (appointment db)) (appointment_id_seq db)) ;;;
        ret row
    end
  else ret obj.

(** [db.delete(obj); db.commit()]: DELETE ... WHERE id = obj.id. *)
Definition delete_commit (obj : Appointment.t) : M unit :=
  db <- get_db ;;
  put_db (mkDB (doctor db)
            (List.filter (fun r => negb (Appointment.id r =? Appointment.id obj)) (appointment db))
            (appointment_id_seq db)).
End Session.

(** ** Mapper configuration *)

(** The mapped classes of [backend/app/models], in the order in which
    db/base.py imports them. *)
Inductive mapped_class : Type :=
| User_class
| Patient_class
| Doctor_class
| Appointment_class
| MedicalRecord_class
| AIInsight_class.

Definition class_name (c : mapped_class) : string :=
  match c with
  | User_class => "User"
  | Patient_class => "Patient"
  | Doctor_class => "Doctor"
  | Appointment_class => "Appointment"
  | MedicalRecord_class => "MedicalRecord"
  | AIInsight_class => "AIInsight"
  end.

Definition mapped_class_eqb (a b : mapped_class) : bool :=
  String.eqb (class_name a) (class_name b).

(** A column declared with [ForeignKey]: the class that holds it, its
    name, and the class whose table it references. *)
Record foreign_key : Type := mkForeignKey {
  fk_class : mapped_class;
  fk_column : string;
  fk_target : mapped_class
}.

(** Every [ForeignKey] of the models: patient.py:14, doctor.py:14,
    appointment.py:32-33, medical_record.py:14-15, ai_insight.py:14. *)
Definition declared_foreign_keys : list foreign_key :=
  [mkForeignKey Patient_class "user_id" User_class;
   mkForeignKey Doctor_class "user_id" User_class;
   mkForeignKey Appointment_class "patient_id" User_class;
   mkForeignKey Appointment_class "doctor_id" Doctor_class;
   mkForeignKey MedicalRecord_class "patient_id" User_class;
   mkForeignKey MedicalRecord_class "doctor_id" Doctor_class;
   mkForeignKey AIInsight_class "patient_id" User_class].

(** A [relationship(...)]: the class that declares it, the attribute, the
    target class and the [foreign_keys] argument when one is given. *)
Record relationship : Type := mkRelationship {
  rel_class : mapped_class;
  rel_name : string;
  rel_target : mapped_class;
  rel_foreign_keys : option (mapped_class * string)
}.

(** Every [relationship] of the models, class by class in import order
    and in the order of the class body: user.py:29-32, patient.py:46-49,
    doctor.py:33-35, appointment.py:70-71, medical_record.py:65-66,
    ai_insight.py:56. (A [backref] adds the reverse attribute over the
    same join.) *)
Definition declared_relationships : list relationship :=
  [mkRelationship User_class "appointments" Appointment_class
     (Some (Appointment_class, "patient_id"));
   mkRelationship User_class "doctor_appointments" Appointment_class
     (Some (Appointment_class, "doctor_id"));
   mkRelationship User_class "medical_records" MedicalRecord_class None;
   mkRelationship User_class "ai_insights" AIInsight_class None;
   mkRelationship Patient_class "user" User_class None;
   mkRelationship Patient_class "appointments" Appointment_class None;
   mkRelationship Patient_class "medical_records" MedicalRecord_class None;
   mkRelationship Patient_class "ai_insights" AIInsight_class None;
   mkRelationship Doctor_class "user" User_class None;
   mkRelationship Doctor_class "appointments" Appointment_class None;
   mkRelationship Doctor_class "medical_records" MedicalRecord_class None;
   mkRelationship Appointment_class "patient" User_class
     (Some (Appointment_class, "patient_id"));
   mkRelationship Appointment_class "doctor" Doctor_class None;
   mkRelationship MedicalRecord_class "patient" User_class None;
   mkRelationship MedicalRecord_class "doctor" Doctor_class None;
   mkRelationship AIInsight_class "patient" User_class None].

Definition relationship_label (r : relationship) : string :=
  (class_name (rel_class r) ++ "." ++ rel_name r)%string.

(** The foreign keys that can carry a relationship: those between the
    tables of its two classes, in either direction, restricted to the
    column named by [foreign_keys] when that argument is given. *)
Definition links (r : relationship) : list foreign_key :=
  filter
    (fun fk =>
       ((mapped_class_eqb (fk_class fk) (rel_class r)
         && mapped_class_eqb (fk_target fk) (rel_target r))
        || (mapped_class_eqb (fk_class fk) (rel_target r)
            && mapped_class_eqb (fk_target fk) (rel_class r)))
       && match rel_foreign_keys r with
          | None => true
          | Some (c, column) =>
              mapped_class_eqb (fk_class fk) c && String.eqb (fk_column fk) column
          end)
    declared_foreign_keys.

(** SQLAlchemy determines the join of a relationship from those foreign
    keys: none is an error, and so is more than one. *)
Definition determine_join (r : relationship) : exn + unit :=
  match links r with
  | [] => inl (NoForeignKeysError (relationship_label r))
  | [_] => inr tt
  | _ => inl (AmbiguousForeignKeysError (relationship_label r))
  end.

(** [configure_mappers()], as the first use of a mapped class in a process
    runs it: the relationships are set up in order and the first one
    without a join raises. *)
Fixpoint configure_mappers (relationships : list relationship) : exn + unit :=
  match relationships with
  | [] => inr tt
  | r :: rest =>
      match determine_join r with
      | inl e => inl e
      | inr _ => configure_mappers rest
      end
  end.

(** ** Request bodies and the pydantic schemas *)

Inductive json : Type :=
| JNull
| JBool (b : bool)
| JNumber (z : Z)
| JString (s : string).

(** A parsed JSON object; the first binding of a key is the one seen. *)
Definition body : Type := list (string * json).

Fixpoint lookup (key : string) (b : body) : option json :=
  match b with
  | [] => None
  | (k, v) :: rest => if String.eqb k key then Some v else lookup key rest
  end.

(** pydantic's validators of the scalar types, with whatever coercions the
    installed version applies: a parameter of the development. *)
Record Pydantic : Type := mkPydantic {
  validate_int : json -> option Z;
  validate_bool : json -> option bool;
  validate_str : json -> option string;
  validate_datetime : json -> option datetime
}.

(** An enumeration accepts the value string of one of its members. *)
Definition validate_enum {E : Type} (value : E -> string) (members : list E)
    (j : json) : option E :=
  match j with
  | JString s => find (fun m => String.eqb (value m) s) members
  | _ => None
  end.

Definition validate_AppointmentStatus : json -> option AppointmentStatus :=
  validate_enum AppointmentStatus_value all_AppointmentStatus.

Definition validate_AppointmentType : json -> option AppointmentType :=
  validate_enum AppointmentType_value all_AppointmentType.

Definition checked {A : Type} (validate : json -> option A) (key : string)
    (j : json) : exn + A :=
  match validate j with
  | Some a => inr a
  | None => inl (RequestValidationError key)
  end.

(** [key: T] *)
Definition required {A : Type} (validate : json -> option A) (key : string)
    (b : body) : exn + A :=
  match lookup key b with
  | None => inl (RequestValidationError key)
  | Some j => checked validate key j
  end.

(** [key: T = default] *)
Definition defaulted {A : Type} (validate : json -> option A) (key : string)
    (default : A) (b : body) : exn + A :=
  match lookup key b with
  | None => inr default
  | Some j => checked validate key j
  end.

(** [key: Optional[T] = None], with whether the key was given: [None] for
    an unset field, [Some None] for an explicit null. *)
Definition optional {A : Type} (validate : json -> option A) (key : string)
    (b : body) : exn + option (option A) :=
  match lookup key b with
  | None => inr None
  | Some JNull => inr (Some None)
  | Some j =>
      match checked validate key j with
      | inr a => inr (Some (Some a))
      | inl e => inl e
      end
  end.

Definition value_of {A : Type} (field : option (option A)) : option A :=
  match field with
  | Some v => v
  | None => None
  end.

Definition and_then {A B : Type} (r : exn + A) (f : A -> exn + B) : exn + B :=
  match r with
  | inr a => f a
  | inl e => inl e
  end.

Notation "x <~ r ;; k" := (and_then r (fun x => k))
  (at level 61, r at next level, right associativity) : session_scope.

(** schemas/appointment.py, [class AppointmentCreate(AppointmentBase)].
    No [model_config]: keys of the body that name no field are ignored. *)
Module AppointmentCreate.
Record t : Type := mk {
  doctor_id : Z;
  appointment_type : AppointmentType;
  scheduled_date : datetime;
  duration_minutes : Z;
  is_virtual : bool;
  reason_for_visit : option string;
  symptoms : option string;
  notes : option string
}.

Definition model_validate (P : Pydantic) (b : body) : exn + t :=
  doctor_id <~ required (validate_int P) "doctor_id" b ;;
  appointment_type <~ defaulted validate_AppointmentType "appointment_type" CONSULTATION b ;;
  scheduled_date <~ required (validate_datetime P) "scheduled_date" b ;;
  duration_minutes <~ defaulted (validate_int P) "duration_minutes" 30 b ;;
  is_virtual <~ defaulted (validate_bool P) "is_virtual" false b ;;
  reason_for_visit <~ optional (validate_str P) "reason_for_visit" b ;;
  symptoms <~ optional (validate_str P) "symptoms" b ;;
  notes <~ optional (validate_str P) "notes" b ;;
  inr (mk doctor_id appointment_type scheduled_date duration_minutes is_virtual
          (value_of reason_for_visit) (value_of symptoms) (value_of notes)).
End AppointmentCreate.

(** schemas/appointment.py, [class AppointmentUpdate(BaseModel)]. Each
    field records whether it was set: [None] is unset, [Some v] is set to
    [v] (where [v] may be Python's [None]). *)
Module AppointmentUpdate.
Record t : Type := mk {
  status : option (option AppointmentStatus);
  scheduled_date : option (option datetime);
  duration_minutes : option (option Z);
  is_virtual : option (option bool);
  reason_for_visit : option (option string);
  symptoms : option (option string);
  notes : option (option string);
  meeting_link : option (option string);
  location : option (option string)
}.

Definition model_validate (P : Pydantic) (b : body) : exn + t :=
  status <~ optional validate_AppointmentStatus "status" b ;;
  scheduled_date <~ optional (validate_datetime P) "scheduled_date" b ;;
  duration_minutes <~ optional (validate_int P) "duration_minutes" b ;;
  is_virtual <~ optional (validate_bool P) "is_virtual" b ;;
  reason_for_visit <~ optional (validate_str P) "reason_for_visit" b ;;
  symptoms <~ optional (validate_str P) "symptoms" b ;;
  notes <~ optional (validate_str P) "notes" b ;;
  meeting_link <~ optional (validate_str P) "meeting_link" b ;;
  location <~ optional (validate_str P) "location" b ;;
  inr (mk status scheduled_date duration_minutes is_virtual reason_for_visit
          symptoms notes meeting_link location).

(** One (field, value) pair of the dumped dict. *)
Inductive item : Type :=
| status_item (v : option AppointmentStatus)
| scheduled_date_item (v : option datetime)
| duration_minutes_item (v : option Z)
| is_virtual_item (v : option bool)
| reason_for_visit_item (v : option string)
| symptoms_item (v : option string)
| notes_item (v : option string)
| meeting_link_item (v : option string)
| location_item (v : option string).

Definition dump_field {A : Type} (mk_item : option A -> item)
    (field : option (option A)) : list item :=
  match field with
  | Some v => [mk_item v]
  | None => []
  end.

(** [model_dump(exclude_unset=True).items()], in field order. *)
Definition model_dump_exclude_unset (u : t) : list item :=
  dump_field status_item (status u)
  ++ dump_field scheduled_date_item (scheduled_date u)
  ++ dump_field duration_minutes_item (duration_minutes u)
  ++ dump_field is_virtual_item (is_virtual u)
  ++ dump_field reason_for_visit_item (reason_for_visit u)
  ++ dump_field symptoms_item (symptoms u)
  ++ dump_field notes_item (notes u)
  ++ dump_field meeting_link_item (meeting_link u)
  ++ dump_field location_item (location u).
End AppointmentUpdate.

(** [setattr(appointment, field, value)] for a pair of the dump. *)
Definition setattr (appointment : Appointment.t) (fv : AppointmentUpdate.item) : Appointment.t :=
  match fv with
  | AppointmentUpdate.status_item v => Appointment.set_status v appointment
  | AppointmentUpdate.scheduled_date_item v => Appointment.set_scheduled_date v appointment
  | AppointmentUpdate.duration_minutes_item v => Appointment.set_duration_minutes v appointment
  | AppointmentUpdate.is_virtual_item v => Appointment.set_is_virtual v appointment
  | AppointmentUpdate.reason_for_visit_item v => Appointment.set_reason_for_visit v appointment
  | AppointmentUpdate.symptoms_item v => Appointment.set_symptoms v appointment
  | AppointmentUpdate.notes_item v => Appointment.set_notes v appointment
  | AppointmentUpdate.meeting_link_item v => Appointment.set_meeting_link v appointment
  | AppointmentUpdate.location_item v => Appointment.set_location v appointment
  end.

(** The constructor call of [create_appointment], which unpacks
    [appointment_in.model_dump()] and adds [patient_id=current_user.id]: the
    keyword arguments are the eight fields of the schema and [patient_id];
    the remaining columns take their declared defaults at the flush, which
    also supplies the key [pk] and the time [now] of the [datetime.utcnow]
    defaults (one reading of the clock stands for both columns). *)
Definition Appointment_init (kw : AppointmentCreate.t) (patient_id : Z)
    (pk : Z) (now : datetime) : Appointment.t :=
  Appointment.mk pk patient_id (AppointmentCreate.doctor_id kw)
    (Some (AppointmentCreate.appointment_type kw))
    (Some SCHEDULED)
    (Some (AppointmentCreate.scheduled_date kw))
    (Some (AppointmentCreate.duration_minutes kw))
    None None
    (Some (AppointmentCreate.is_virtual kw))
    None None
    (AppointmentCreate.reason_for_visit kw)
    (AppointmentCreate.symptoms kw)
    (AppointmentCreate.notes kw)
    (Some float_zero) (Some "pending") (Some false) None
    None None
    (Some now) (Some now).

(** ** The endpoints (api/endpoints/appointments.py) *)

(** [current_user.doctor_profile.id] *)
Definition doctor_profile_id (current_user : User.t) : M pyvalue :=
  doctor_profile <- getattr (PyUser current_user) "doctor_profile" ;;
  getattr doctor_profile "id".

(** GET [/]: [read_appointments]. *)
Definition read_appointments (skip limit : Z) (current_user : User.t)
    : M (list Appointment.t) :=
  if String.eqb (User.role current_user) "doctor" then
    c <- (has <- hasattr (PyUser current_user) "doctor_profile" ;;
          if has then
            v <- doctor_profile_id current_user ;;
            ret (ColumnEq Appointment_doctor_id v)
          else ret (Literal false)) ;;
    Query.all (Query.limit (Query.offset (Query.filter Query.Appointment c) skip) limit)
  else
    Query.all (Query.limit (Query.offset
      (Query.filter Query.Appointment
         (ColumnEq Appointment_patient_id (PyInt (User.id current_user))))
      skip) limit).

(** POST [/]: [create_appointment]. *)
Definition create_appointment (appointment_in : AppointmentCreate.t)
    (current_user : User.t) (now : datetime) : M Appointment.t :=
  Session.add_commit_refresh_new
    (Appointment_init appointment_in (User.id current_user)) now.

Definition by_id (appointment_id : Z) : Query.t :=
  Query.filter Query.Appointment (ColumnEq Appointment_id (PyInt appointment_id)).

(** GET [/{appointment_id}]: [read_appointment]. *)
Definition read_appointment (appointment_id : Z) (current_user : User.t)
    : M Appointment.t :=
  found <- Query.first (by_id appointment_id) ;;
  match found with
  | None => raise NotFound
  | Some appointment =>
      denied <-
        py_and
          (py_and
             (ret (negb (Appointment.patient_id appointment =? User.id current_user)))
             (py_or
                (py_not (hasattr (PyUser current_user) "doctor_profile"))
                (v <- doctor_profile_id current_user ;;
                 ret (py_ne v (PyInt (Appointment.doctor_id appointment))))))
          (ret (negb (User.is_superuser current_user))) ;;
      if denied then raise Forbidden else ret appointment
  end.

(** PUT [/{appointment_id}]: [update_appointment]. *)
Definition update_appointment (appointment_id : Z)
    (appointment_in : AppointmentUpdate.t) (current_user : User.t)
    (now : datetime) : M Appointment.t :=
  found <- Query.first (by_id appointment_id) ;;
  match found with
  | None => raise NotFound
  | Some appointment =>
      denied <-
        py_and
          (py_and
             (ret (negb (Appointment.patient_id appointment =? User.id current_user)))
             (py_or
                (py_not (hasattr (PyUser current_user) "doctor_profile"))
                (v <- doctor_profile_id current_user ;;
                 ret (py_ne v (PyInt (Appointment.doctor_id appointment))))))
          (ret (negb (User.is_superuser current_user))) ;;
      if denied then raise Forbidden
      else
        Session.add_commit_refresh appointment
          (fold_left setattr
             (AppointmentUpdate.model_dump_exclude_unset appointment_in)
             appointment)
          now
  end.

(** DELETE [/{appointment_id}]: [delete_appointment]. *)
Definition delete_appointment (appointment_id : Z) (current_user : User.t)
    : M string :=
  found <- Query.first (by_id appointment_id) ;;
  match found with
  | None => raise NotFound
  | Some appointment =>
      if negb (Appointment.patient_id appointment =? User.id current_user)
         && negb (User.is_superuser current_user)
      then raise Forbidden
      else
        Session.delete_commit appointment ;;;
        ret "Appointment deleted successfully"
  end.

(** The two endpoints that take a body, with FastAPI's validation of it
    in front. *)
Definition create_appointment_request (P : Pydantic) (b : body)
    (current_user : User.t) (now : datetime) : M Appointment.t :=
  match AppointmentCreate.model_validate P b with
  | inl e => raise e
  | inr appointment_in => create_appointment appointment_in current_user now
  end.

Definition update_appointment_request (P : Pydantic) (appointment_id : Z)
    (b : body) (current_user : User.t) (now : datetime) : M Appointment.t :=
  match AppointmentUpdate.model_validate P b with
  | inl e => raise e
  | inr appointment_in =>
      update_appointment appointment_id appointment_in current_user now
  end.

(** ** The endpoints on a set of declared relationships

    The first ORM statement of every endpoint is [db.query(Appointment)]
    (appointments.py:25, 29, 65, 96, 132) or the constructor call
    [Appointment(...)] (appointments.py:45). In a process that has not
    used the mapping yet, that statement makes SQLAlchemy configure the
    mappers of all the imported models; when the configuration raises,
    the endpoint ends there, before it has read or written anything. The
    body is validated before the endpoint function is called. *)

Definition with_mappers {A : Type} (relationships : list relationship)
    (endpoint : M A) : M A :=
  match configure_mappers relationships with
  | inl e => raise e
  | inr _ => endpoint
  end.

Module Mapped.
Definition read_appointments (relationships : list relationship)
    (skip limit : Z) (current_user : User.t) : M (list Appointment.t) :=
  with_mappers relationships (read_appointments skip limit current_user).

Definition create_appointment (relationships : list relationship)
    (appointment_in : AppointmentCreate.t) (current_user : User.t)
    (now : datetime) : M Appointment.t :=
  with_mappers relationships (create_appointment appointment_in current_user now).

Definition read_appointment (relationships : list relationship)
    (appointment_id : Z) (current_user : User.t) : M Appointment.t :=
  with_mappers relationships (read_appointment appointment_id current_user).

Definition update_appointment (relationships : list relationship)
    (appointment_id : Z) (appointment_in : AppointmentUpdate.t)
    (current_user : User.t) (now : datetime) : M Appointment.t :=
  with_mappers relationships
    (update_appointment appointment_id appointment_in current_user now).

Definition delete_appointment (relationships : list relationship)
    (appointment_id : Z) (current_user : User.t) : M string :=
  with_mappers relationships (delete_appointment appointment_id current_user).

Definition create_appointment_request (relationships : list relationship)
    (P : Pydantic) (b : body) (current_user : User.t) (now : datetime)
    : M Appointment.t :=
  match AppointmentCreate.model_validate P b with
  | inl e => raise e
  | inr appointment_in => create_appointment relationships appointment_in current_user now
  end.

Definition update_appointment_request (relationships : list relationship)
    (P : Pydantic) (appointment_id : Z) (b : body) (current_user : User.t)
    (now : datetime) : M Appointment.t :=
  match AppointmentUpdate.model_validate P b with
  | inl e => raise e
  | inr appointment_in =>
      update_appointment relationships appointment_id appointment_in current_user now
  end.
End Mapped.

(** What the configuration of the declared relationships raises. *)
Definition mapping_error : exn := NoForeignKeysError "User.doctor_appointments".



(** ** A concrete scenario

    The scenario of the specification: patient P1 books doctor D1 for
    2025-03-01T10:00:00; P2 is an unrelated patient; there is an
    administrator with the superuser flag and a user with role doctor
    that has no row in [doctor]. *)
Module Scenario.
(** Validators without coercion; a datetime is given as a number of
    seconds since the epoch. *)
Definition strict : Pydantic :=
  mkPydantic
    (fun j => match j with JNumber z => Some z | _ => None end)
    (fun j => match j with JBool b => Some b | _ => None end)
    (fun j => match j with JString s => Some s | _ => None end)
    (fun j => match j with JNumber z => Some (z * 1000000) | _ => None end).

Definition P1 : User.t := User.mk 1 "p1@example.org" "Patient One" true false "patient".
Definition P2 : User.t := User.mk 2 "p2@example.org" "Patient Two" true false "patient".
Definition D1 : User.t := User.mk 3 "d1@example.org" "Doctor One" true false "doctor".
Definition admin : User.t := User.mk 4 "root@example.org" "Administrator" true true "admin".
Definition D0 : User.t := User.mk 5 "d0@example.org" "Doctor Nought" true false "doctor".

Definition D1_profile : Doctor.t := Doctor.mk 7 3 "LIC-0007" "nephrology".

Definition t0 : datetime := 1740000000000000.
Definition t1 : datetime := 1740000600000000.

Definition empty : DB := mkDB [D1_profile] [] 1.

Definition booking : body :=
  [("doctor_id", JNumber 7); ("scheduled_date", JNumber 1740823200);
   ("patient_id", JNumber 2)].

Definition A : Appointment.t :=
  Appointment.mk 1 1 7 (Some CONSULTATION) (Some SCHEDULED)
    (Some 1740823200000000) (Some 30) None None (Some false) None None
    None None None (Some float_zero) (Some "pending") (Some false) None
    None None (Some t0) (Some t0).

Definition booked : DB := mkDB [D1_profile] [A] 2.

(** [booked] after the deletion of [A]. *)
Definition empty_after : DB := mkDB [D1_profile] [] 2.

Definition completed : AppointmentUpdate.t :=
  AppointmentUpdate.mk (Some (Some COMPLETED)) None None None None None None None None.

(** A body that moves the appointment by a day and tries to hand it to
    another patient and another doctor. *)
Definition postpone : body :=
  [("scheduled_date", JNumber 1740909600); ("patient_id", JNumber 2);
   ("doctor_id", JNumber 8)].


(** A second appointment, of P2 with the same doctor, and the store
    that holds both. *)
Definition B : Appointment.t :=
  Appointment.mk 2 2 7 (Some FOLLOW_UP) (Some CONFIRMED)
    (Some 1740996000000000) (Some 45) None None (Some true)
    (Some "https://meet.example.org/b") None
    (Some "check-up") None None (Some float_zero) (Some "pending") (Some false) None
    None None (Some t0) (Some t0).

Definition booked_twice : DB := mkDB [D1_profile] [A; B] 3.

(** A body that sets no field of the update schema. *)
Definition no_field : body := [("patient_id", JNumber 2); ("id", JNumber 5)].

(** A payload that sets several fields, one of them to null. *)
Definition reschedule : AppointmentUpdate.t :=
  AppointmentUpdate.mk (Some (Some CONFIRMED)) (Some (Some 1740909600000000)) None
    (Some (Some true)) None None (Some None)
    (Some (Some "https://meet.example.org/a")) None.

End Scenario.

(** ** Vocabulary of the statements *)

(** The store's [get]: the row of [appointment] with the given key. *)
Definition get (appointment_id : Z) (db : DB) : option Appointment.t :=
  find (fun row => Appointment.id row =? appointment_id) (appointment db).

(** The rows a list query selects, before OFFSET and LIMIT. *)
Definition by_patient (patient_id : Z) (db : DB) : list Appointment.t :=
  filter (fun row => Appointment.patient_id row =? patient_id) (appointment db).

Definition by_doctor (doctor_id : Z) (db : DB) : list Appointment.t :=
  filter (fun row => Appointment.doctor_id row =? doctor_id) (appointment db).

Definition page (skip limit : Z) (rows : list Appointment.t) : list Appointment.t :=
  firstn (Z.to_nat limit) (skipn (Z.to_nat skip) rows).

(** [u] has a doctor profile whose id is [doctor_id]. *)
Definition is_doctor_with_profile (u : User.t) (doctor_id : Z) (db : DB) : Prop :=
  exists d, In d (doctors_of u db) /\ Doctor.id d = doctor_id.

(** Two appointments agree on every column except [status] and
    [updated_at]. *)
Definition same_but_status_and_updated_at (a b : Appointment.t) : Prop :=
  Appointment.id a = Appointment.id b
  /\ Appointment.patient_id a = Appointment.patient_id b
  /\ Appointment.doctor_id a = Appointment.doctor_id b
  /\ Appointment.appointment_type a = Appointment.appointment_type b
  /\ Appointment.scheduled_date a = Appointment.scheduled_date b
  /\ Appointment.duration_minutes a = Appointment.duration_minutes b
  /\ Appointment.actual_start_time a = Appointment.actual_start_time b
  /\ Appointment.actual_end_time a = Appointment.actual_end_time b
  /\ Appointment.is_virtual a = Appointment.is_virtual b
  /\ Appointment.meeting_link a = Appointment.meeting_link b
  /\ Appointment.location a = Appointment.location b
  /\ Appointment.reason_for_visit a = Appointment.reason_for_visit b
  /\ Appointment.symptoms a = Appointment.symptoms b
  /\ Appointment.notes a = Appointment.notes b
  /\ Appointment.consultation_fee a = Appointment.consultation_fee b
  /\ Appointment.payment_status a = Appointment.payment_status b
  /\ Appointment.follow_up_required a = Appointment.follow_up_required b
  /\ Appointment.follow_up_date a = Appointment.follow_up_date b
  /\ Appointment.ai_risk_score a = Appointment.ai_risk_score b
  /\ Appointment.ai_recommendations a = Appointment.ai_recommendations b
  /\ Appointment.created_at a = Appointment.created_at b.

(** The columns that no field of [AppointmentUpdate] names. *)
Definition same_unassignable (a b : Appointment.t) : Prop :=
  Appointment.id a = Appointment.id b
  /\ Appointment.patient_id a = Appointment.patient_id b
  /\ Appointment.doctor_id a = Appointment.doctor_id b.

(** The outcome of the access control of an endpoint: the exception with
    which the request was turned away before any write ([NotFound],
    [Forbidden], or an exception raised while the condition was
    evaluated), or [None] when the request got past it. The exceptions of
    the write itself ([IntegrityError]) are not access control. *)
Definition turned_away {A : Type} (outcome : (exn + A) * DB) : option exn :=
  match fst outcome with
  | inl (IntegrityError _) => None
  | inl e => Some e
  | inr _ => None
  end.

(** The request got past the access control of the endpoint. *)
Definition permitted {A : Type} (outcome : (exn + A) * DB) : Prop :=
  turned_away outcome = None.

(** What evaluating [.id] on the [doctor_profile] collection raises. *)
Definition no_id_on_list : exn := AttributeError "InstrumentedList" "id".

(** The primary key of [appointment]: no two rows share an [id], and the
    sequence is ahead of every [id] in the table. *)
Definition key_invariant (db : DB) : Prop :=
  NoDup (map Appointment.id (appointment db))
  /\ forall row, In row (appointment db) -> Appointment.id row < appointment_id_seq db.

(** The value of a column after a sparse patch: the value of the field
    when the payload sets it, the old value otherwise. *)
Definition patched {A : Type} (field : option (option A)) (old : option A) : option A :=
  match field with
  | Some v => v
  | None => old
  end.

(** The sparse patch, written out column by column: what an update with
    payload [u] is to make of the appointment [a], [updated_at] aside. *)
Definition sparse_patch (u : AppointmentUpdate.t) (a : Appointment.t) : Appointment.t :=
  Appointment.mk (Appointment.id a) (Appointment.patient_id a) (Appointment.doctor_id a)
    (Appointment.appointment_type a)
    (patched (AppointmentUpdate.status u) (Appointment.status a))
    (patched (AppointmentUpdate.scheduled_date u) (Appointment.scheduled_date a))
    (patched (AppointmentUpdate.duration_minutes u) (Appointment.duration_minutes a))
    (Appointment.actual_start_time a) (Appointment.actual_end_time a)
    (patched (AppointmentUpdate.is_virtual u) (Appointment.is_virtual a))
    (patched (AppointmentUpdate.meeting_link u) (Appointment.meeting_link a))
    (patched (AppointmentUpdate.location u) (Appointment.location a))
    (patched (AppointmentUpdate.reason_for_visit u) (Appointment.reason_for_visit a))
    (patched (AppointmentUpdate.symptoms u) (Appointment.symptoms a))
    (patched (AppointmentUpdate.notes u) (Appointment.notes a))
    (Appointment.consultation_fee a) (Appointment.payment_status a)
    (Appointment.follow_up_required a) (Appointment.follow_up_date a)
    (Appointment.ai_risk_score a) (Appointment.ai_recommendations a)
    (Appointment.created_at a) (Appointment.updated_at a).

(** The field names of [AppointmentUpdate]. *)
Definition AppointmentUpdate_fields : list string :=
  ["status"; "scheduled_date"; "duration_minutes"; "is_virtual";
   "reason_for_visit"; "symptoms"; "notes"; "meeting_link"; "location"].

(** * Properties *)

(** ** Queries *)

Lemma head_filter_find {A : Type} (p : A -> bool) (l : list A) :
  match firstn 1 (filter p l) with [] => None | x :: _ => Some x end = find p l.
Proof.
  induction l as [|x l IH]; simpl.
  - reflexivity.
  - destruct (p x); simpl.
    + reflexivity.
    + exact IH.
Qed.

Lemma filter_ext_bool {A : Type} (p q : A -> bool) (l : list A) :
  (forall x, p x = q x) -> filter p l = filter q l.
Proof.
  intros E. induction l as [|x l IH]; simpl.
  - reflexivity.
  - rewrite E, IH. reflexivity.
Qed.

Lemma first_by_id (appointment_id : Z) (db : DB) :
  Query.first (by_id appointment_id) db = (inr (get appointment_id db), db).
Proof.
  unfold Query.first, Query.all, by_id, bind, get_db, ret, get. simpl.
  unfold Query.matching. simpl.
  rewrite (filter_ext_bool _ (fun row => Appointment.id row =? appointment_id)).
  - rewrite <- head_filter_find. reflexivity.
  - intros row. rewrite andb_true_r. reflexivity.
Qed.

Lemma all_by_patient (skip limit patient_id : Z) (db : DB) :
  0 <= skip -> 0 <= limit ->
  Query.all (Query.limit (Query.offset
      (Query.filter Query.Appointment
         (ColumnEq Appointment_patient_id (PyInt patient_id))) skip) limit) db
  = (inr (page skip limit (by_patient patient_id db)), db).
Proof.
  intros Hs Hl. unfold Query.all. simpl.
  destruct (Z.ltb_spec skip 0); [lia|].
  destruct (Z.ltb_spec limit 0); [lia|].
  unfold bind, get_db, ret, page, by_patient, Query.matching. simpl.
  rewrite (filter_ext_bool _ (fun row => Appointment.patient_id row =? patient_id)).
  - reflexivity.
  - intros row. rewrite andb_true_r. reflexivity.
Qed.

(** ** Attribute access on the authenticated user *)

Lemma hasattr_doctor_profile (u : User.t) (db : DB) :
  hasattr (PyUser u) "doctor_profile" db = (inr true, db).
Proof. reflexivity. Qed.

Lemma doctor_profile_id_raises (u : User.t) (db : DB) :
  doctor_profile_id u db = (inl no_id_on_list, db).
Proof. reflexivity. Qed.

(** The condition that guards the 403 of [read_appointment] and
    [update_appointment], evaluated: the owner is let through; for anyone
    else the evaluation reaches [current_user.doctor_profile.id]. *)
Lemma permission_condition (a : Appointment.t) (u : User.t) (db : DB) :
  py_and
    (py_and
       (ret (negb (Appointment.patient_id a =? User.id u)))
       (py_or
          (py_not (hasattr (PyUser u) "doctor_profile"))
          (v <- doctor_profile_id u ;;
           ret (py_ne v (PyInt (Appointment.doctor_id a))))))
    (ret (negb (User.is_superuser u))) db
  = if Appointment.patient_id a =? User.id u
    then (inr false, db)
    else (inl no_id_on_list, db).
Proof.
  unfold py_and, py_or, py_not, bind, ret. simpl.
  destruct (Appointment.patient_id a =? User.id u); reflexivity.
Qed.

(** ** The endpoints, evaluated *)

Lemma read_appointment_eq (appointment_id : Z) (u : User.t) (db : DB) :
  read_appointment appointment_id u db =
  match get appointment_id db with
  | None => (inl NotFound, db)
  | Some a =>
      if Appointment.patient_id a =? User.id u then (inr a, db)
      else (inl no_id_on_list, db)
  end.
Proof.
  unfold read_appointment, bind at 1. rewrite first_by_id.
  destruct (get appointment_id db) as [a|]; [|reflexivity].
  unfold bind at 1. rewrite permission_condition.
  destruct (Appointment.patient_id a =? User.id u); reflexivity.
Qed.

Lemma update_appointment_eq (appointment_id : Z) (appointment_in : AppointmentUpdate.t)
    (u : User.t) (now : datetime) (db : DB) :
  update_appointment appointment_id appointment_in u now db =
  match get appointment_id db with
  | None => (inl NotFound, db)
  | Some a =>
      if Appointment.patient_id a =? User.id u then
        Session.add_commit_refresh a
          (fold_left setattr (AppointmentUpdate.model_dump_exclude_unset appointment_in) a)
          now db
      else (inl no_id_on_list, db)
  end.
Proof.
  unfold update_appointment, bind at 1. rewrite first_by_id.
  destruct (get appointment_id db) as [a|]; [|reflexivity].
  unfold bind at 1. rewrite permission_condition.
  destruct (Appointment.patient_id a =? User.id u); reflexivity.
Qed.

Lemma delete_appointment_eq (appointment_id : Z) (u : User.t) (db : DB) :
  delete_appointment appointment_id u db =
  match get appointment_id db with
  | None => (inl NotFound, db)
  | Some a =>
      if negb (Appointment.patient_id a =? User.id u) && negb (User.is_superuser u)
      then (inl Forbidden, db)
      else (inr "Appointment deleted successfully",
            mkDB (doctor db)
              (filter (fun r => negb (Appointment.id r =? Appointment.id a)) (appointment db))
              (appointment_id_seq db))
  end.
Proof.
  unfold delete_appointment, bind at 1. rewrite first_by_id.
  destruct (get appointment_id db) as [a|]; [|reflexivity].
  destruct (negb (Appointment.patient_id a =? User.id u) && negb (User.is_superuser u));
    reflexivity.
Qed.

(** ** The store *)

Lemma get_id (appointment_id : Z) (db : DB) (a : Appointment.t) :
  get appointment_id db = Some a -> Appointment.id a = appointment_id.
Proof.
  unfold get. intros H. apply find_some in H. destruct H as [_ H].
  apply Z.eqb_eq. exact H.
Qed.

Lemma find_filter_out (appointment_id : Z) (rows : list Appointment.t) :
  find (fun row => Appointment.id row =? appointment_id)
    (filter (fun r => negb (Appointment.id r =? appointment_id)) rows) = None.
Proof.
  induction rows as [|r rows IH]; simpl.
  - reflexivity.
  - destruct (Appointment.id r =? appointment_id) eqn:E; simpl.
    + exact IH.
    + rewrite E. exact IH.
Qed.

Lemma find_replace_row_same (row : Appointment.t) (rows : list Appointment.t)
    (a : Appointment.t) :
  find (fun r => Appointment.id r =? Appointment.id row) rows = Some a ->
  find (fun r => Appointment.id r =? Appointment.id row) (Session.replace_row row rows)
  = Some row.
Proof.
  induction rows as [|r rows IH]; simpl.
  - discriminate.
  - destruct (Appointment.id r =? Appointment.id row) eqn:E.
    + intros _. rewrite Z.eqb_refl. reflexivity.
    + rewrite E. exact IH.
Qed.

Lemma find_replace_row_other (key : Z) (row : Appointment.t) (rows : list Appointment.t) :
  Appointment.id row <> key ->
  find (fun r => Appointment.id r =? key) (Session.replace_row row rows)
  = find (fun r => Appointment.id r =? key) rows.
Proof.
  intros Hne. induction rows as [|r rows IH]; simpl.
  - reflexivity.
  - destruct (Appointment.id r =? Appointment.id row) eqn:E.
    + apply Z.eqb_eq in E.
      destruct (Z.eqb_spec (Appointment.id row) key) as [K|K]; [contradiction|].
      destruct (Z.eqb_spec (Appointment.id r) key) as [K'|K']; [congruence|].
      exact IH.
    + destruct (Appointment.id r =? key); [reflexivity | exact IH].
Qed.

(** ** Assignment of the dumped fields *)

Lemma setattr_unassignable (a : Appointment.t) (fv : AppointmentUpdate.item) :
  same_unassignable (setattr a fv) a.
Proof. destruct fv; repeat split. Qed.

Lemma fold_setattr_unassignable (items : list AppointmentUpdate.item) (a : Appointment.t) :
  same_unassignable (fold_left setattr items a) a.
Proof.
  revert a. induction items as [|fv items IH]; intros a; simpl.
  - repeat split.
  - destruct (IH (setattr a fv)) as (H1 & H2 & H3).
    destruct (setattr_unassignable a fv) as (K1 & K2 & K3).
    repeat split; congruence.
Qed.

Lemma AppointmentStatus_eqb_eq (x y : option AppointmentStatus) :
  option_eqb AppointmentStatus_eqb x y = true -> x = y.
Proof.
  destruct x as [x|], y as [y|]; simpl; try discriminate; try reflexivity.
  destruct x, y; simpl; (reflexivity || discriminate).
Qed.

(** What the commit of an assigned object does, by cases. *)
Lemma add_commit_refresh_cases (loaded obj : Appointment.t) (now : datetime) (db : DB) :
  (Session.modified loaded obj = false
   /\ Session.add_commit_refresh loaded obj now db = (inr obj, db))
  \/ (Session.modified loaded obj = true
      /\ Appointment.scheduled_date obj = None
      /\ Session.add_commit_refresh loaded obj now db
         = (inl (IntegrityError "appointment.scheduled_date NOT NULL"), db))
  \/ (Session.modified loaded obj = true
      /\ Appointment.scheduled_date obj <> None
      /\ Session.add_commit_refresh loaded obj now db
         = (inr (Appointment.set_updated_at (Some now) obj),
            mkDB (doctor db)
              (Session.replace_row (Appointment.set_updated_at (Some now) obj) (appointment db))
              (appointment_id_seq db))).
Proof.
  unfold Session.add_commit_refresh.
  destruct (Session.modified loaded obj).
  - destruct (Appointment.scheduled_date obj) eqn:E.
    + right. right. repeat split; congruence.
    + right. left. repeat split.
  - left. split; reflexivity.
Qed.

(** ** Create *)

(** Once the mappers are configured: for every create request issued by
    an actor, whatever the body
    contains (a [patient_id] key included), the appointment that the
    create operation returns has [patient_id] equal to the actor's id,
    and it is the row that was stored. *)
Lemma create_appointment_forces_patient_id
    (P : Pydantic) (b : body) (u : User.t) (now : datetime)
    (db db' : DB) (a : Appointment.t) :
  create_appointment_request P b u now db = (inr a, db') ->
  Appointment.patient_id a = User.id u /\ In a (appointment db').
Proof.
  unfold create_appointment_request.
  destruct (AppointmentCreate.model_validate P b) as [e|appointment_in]; [discriminate|].
  unfold create_appointment, Session.add_commit_refresh_new, bind, get_db, put_db, ret, raise.
  simpl.
  destruct (Session.doctor_exists (AppointmentCreate.doctor_id appointment_in) db);
    [|discriminate].
  intros H. injection H as Ha Hdb. subst a db'. simpl.
  split; [reflexivity|]. apply in_or_app. right. left. reflexivity.
Qed.

(** ** Read *)

(** The patient of an appointment reads it. *)
Lemma read_appointment_by_patient (A : Appointment.t) (u : User.t) (db : DB) :
  get (Appointment.id A) db = Some A ->
  User.id u = Appointment.patient_id A ->
  read_appointment (Appointment.id A) u db = (inr A, db).
Proof.
  intros HA Hu. rewrite read_appointment_eq, HA, Hu, Z.eqb_refl. reflexivity.
Qed.

(** Anyone else, the superuser and the appointment's doctor included, gets
    the exception of [current_user.doctor_profile.id], never a 403. *)
Lemma read_appointment_by_another (A : Appointment.t) (u : User.t) (db : DB) :
  get (Appointment.id A) db = Some A ->
  User.id u <> Appointment.patient_id A ->
  read_appointment (Appointment.id A) u db = (inl no_id_on_list, db).
Proof.
  intros HA Hu. rewrite read_appointment_eq, HA.
  destruct (Z.eqb_spec (Appointment.patient_id A) (User.id u)); [congruence|reflexivity].
Qed.

(** C2, at the scenario. P2 is neither the patient of [A], nor a
    superuser, nor a doctor: the specification promises [Forbidden], the endpoint
    raises [AttributeError]. D1 is the doctor of [A]: it promises
    the appointment, the endpoint raises the same exception. *)
Theorem read_appointment_by_P2_and_D1 :
  get 1 Scenario.booked = Some Scenario.A
  /\ doctors_of Scenario.P2 Scenario.booked = []
  /\ fst (read_appointment 1 Scenario.P2 Scenario.booked) = inl no_id_on_list
  /\ is_doctor_with_profile Scenario.D1 (Appointment.doctor_id Scenario.A) Scenario.booked
  /\ fst (read_appointment 1 Scenario.D1 Scenario.booked) = inl no_id_on_list
  /\ fst (read_appointment 1 Scenario.P1 Scenario.booked) = inr Scenario.A.
Proof.
  repeat split; try reflexivity.
  exists Scenario.D1_profile. split; [left|]; reflexivity.
Qed.

(** C7, at the scenario. The administrator is a superuser and not the
    patient of [A]: reading and updating [A] raise [AttributeError] before
    [is_superuser] is looked at; deleting [A] succeeds. *)
Theorem superuser_read_update_delete :
  User.is_superuser Scenario.admin = true
  /\ fst (read_appointment 1 Scenario.admin Scenario.booked) = inl no_id_on_list
  /\ fst (update_appointment 1 Scenario.completed Scenario.admin Scenario.t1 Scenario.booked)
     = inl no_id_on_list
  /\ delete_appointment 1 Scenario.admin Scenario.booked
     = (inr "Appointment deleted successfully", Scenario.empty_after).
Proof. repeat split. Qed.

(** A superuser deletes any appointment. *)
Lemma delete_appointment_by_superuser (A : Appointment.t) (u : User.t) (db : DB) :
  get (Appointment.id A) db = Some A ->
  User.is_superuser u = true ->
  fst (delete_appointment (Appointment.id A) u db) = inr "Appointment deleted successfully".
Proof.
  intros HA Hu. rewrite delete_appointment_eq, HA, Hu, andb_false_r. reflexivity.
Qed.

(** ** Delete *)

(** Once the mappers are configured: for every existing appointment
    [A], the delete of [A.id] by the
    actor whose id is [A.patient_id] succeeds, and afterwards the store
    has no row for [A.id] and a read of [A.id] by anyone answers
    [NotFound]; the delete by an actor who is not a superuser, whose id
    differs from [A.patient_id] and whose doctor profile is
    [A.doctor_id], fails with [Forbidden]. *)
Lemma delete_appointment_by_patient_and_by_doctor (A : Appointment.t) (db : DB) :
  get (Appointment.id A) db = Some A ->
  (forall u, User.id u = Appointment.patient_id A ->
     fst (delete_appointment (Appointment.id A) u db)
       = inr "Appointment deleted successfully"
     /\ get (Appointment.id A) (snd (delete_appointment (Appointment.id A) u db)) = None
     /\ forall u',
          fst (read_appointment (Appointment.id A) u'
                 (snd (delete_appointment (Appointment.id A) u db)))
          = inl NotFound)
  /\ (forall u, User.id u <> Appointment.patient_id A ->
        User.is_superuser u = false ->
        is_doctor_with_profile u (Appointment.doctor_id A) db ->
        delete_appointment (Appointment.id A) u db = (inl Forbidden, db)).
Proof.
  intros HA. split.
  - intros u Hu. rewrite delete_appointment_eq, HA, Hu, Z.eqb_refl. simpl.
    assert (G : get (Appointment.id A)
                  (mkDB (doctor db)
                     (filter (fun r => negb (Appointment.id r =? Appointment.id A))
                        (appointment db))
                     (appointment_id_seq db)) = None).
    { unfold get. simpl. apply find_filter_out. }
    repeat split.
    + exact G.
    + intros u'. rewrite read_appointment_eq, G. reflexivity.
  - intros u Hu Hs _. rewrite delete_appointment_eq, HA, Hs.
    destruct (Z.eqb_spec (Appointment.patient_id A) (User.id u)); [congruence|reflexivity].
Qed.

(** ** List *)

(** For a user whose role is doctor the filter criterion is never built:
    [hasattr] answers [True] and [.id] is asked of the collection. *)
Lemma read_appointments_doctor_role (skip limit : Z) (u : User.t) (db : DB) :
  User.role u = "doctor" ->
  read_appointments skip limit u db = (inl no_id_on_list, db).
Proof.
  intros Hr. unfold read_appointments. rewrite Hr. reflexivity.
Qed.

(** For every other role the list is the page of the appointments whose
    [patient_id] is the user's id. *)
Lemma read_appointments_other_role (skip limit : Z) (u : User.t) (db : DB) :
  User.role u <> "doctor" ->
  0 <= skip -> 0 <= limit ->
  read_appointments skip limit u db
  = (inr (page skip limit (by_patient (User.id u) db)), db).
Proof.
  intros Hr Hs Hl. unfold read_appointments.
  destruct (String.eqb_spec (User.role u) "doctor"); [contradiction|].
  apply all_by_patient; assumption.
Qed.

(** C4, at the scenario. D0 has role doctor and no row in [doctor]: the
    specification promises the empty list, the endpoint raises
    [AttributeError]. *)
Theorem read_appointments_doctor_without_profile :
  User.role Scenario.D0 = "doctor"
  /\ doctors_of Scenario.D0 Scenario.booked = []
  /\ read_appointments 0 100 Scenario.D0 Scenario.booked
     = (inl no_id_on_list, Scenario.booked).
Proof. repeat split. Qed.

(** C6, at the scenario. D1 has role doctor and the profile 7; the
    appointments with [doctor_id] 7 are [[A]]: the specification promises that
    list, the endpoint raises [AttributeError]. For the patient P1 the
    list is as specified. *)
Theorem read_appointments_doctor_with_profile :
  User.role Scenario.D1 = "doctor"
  /\ doctors_of Scenario.D1 Scenario.booked = [Scenario.D1_profile]
  /\ page 0 100 (by_doctor (Doctor.id Scenario.D1_profile) Scenario.booked) = [Scenario.A]
  /\ read_appointments 0 100 Scenario.D1 Scenario.booked
     = (inl no_id_on_list, Scenario.booked)
  /\ read_appointments 0 100 Scenario.P1 Scenario.booked
     = (inr (page 0 100 (by_patient (User.id Scenario.P1) Scenario.booked)), Scenario.booked).
Proof. repeat split. Qed.

(** ** Update *)

(** Once the mappers are configured: for every existing appointment [A]
    and every update that gets
    past the policy with a payload whose only set field is [status], the
    resulting appointment has the status of the payload and agrees with
    [A] on every column other than [status] and [updated_at]; it is the
    row stored under [A.id]. *)
Lemma update_appointment_status_only
    (A : Appointment.t) (appointment_in : AppointmentUpdate.t)
    (v : option AppointmentStatus) (u : User.t) (now : datetime)
    (db db' : DB) (a' : Appointment.t) :
  get (Appointment.id A) db = Some A ->
  AppointmentUpdate.model_dump_exclude_unset appointment_in
    = [AppointmentUpdate.status_item v] ->
  update_appointment (Appointment.id A) appointment_in u now db = (inr a', db') ->
  Appointment.status a' = v
  /\ same_but_status_and_updated_at a' A
  /\ get (Appointment.id A) db' = Some a'.
Proof.
  intros HA Hdump. rewrite update_appointment_eq, HA, Hdump. simpl.
  destruct (Appointment.patient_id A =? User.id u); [|discriminate].
  destruct (add_commit_refresh_cases A (Appointment.set_status v A) now db)
    as [(Hm & E) | [(Hm & Hd & E) | (Hm & Hd & E)]]; rewrite E; clear E.
  - intros H. injection H as Ha Hdb. subst a' db'.
    split; [reflexivity|]. split; [repeat split|].
    assert (Hv : Appointment.status A = v).
    { apply AppointmentStatus_eqb_eq.
      unfold Session.modified in Hm. apply negb_false_iff in Hm.
      repeat (apply andb_prop in Hm; destruct Hm as [Hm _]). exact Hm. }
    rewrite HA. f_equal. subst v. destruct A; reflexivity.
  - discriminate.
  - intros H. injection H as Ha Hdb. subst a' db'.
    split; [reflexivity|]. split; [repeat split|].
    unfold get. simpl.
    apply (find_replace_row_same
             (Appointment.set_updated_at (Some now) (Appointment.set_status v A))
             (appointment db) A).
    exact HA.
Qed.

(** The body [{"status": "completed"}] is such a payload, for any
    validators of the scalar types. *)
Lemma status_completed_body (P : Pydantic) :
  AppointmentUpdate.model_validate P [("status", JString "completed")]
  = inr Scenario.completed.
Proof. reflexivity. Qed.

(** Once the mappers are configured: for every existing appointment [A]
    and every update request with
    any body, the resulting appointment has the [patient_id] and the
    [doctor_id] of [A], and so has every appointment of the store: each
    key that had a row still has one, with the same two references. *)
Lemma update_appointment_keeps_patient_and_doctor
    (P : Pydantic) (A : Appointment.t) (b : body) (u : User.t) (now : datetime)
    (db db' : DB) (a' : Appointment.t) :
  get (Appointment.id A) db = Some A ->
  update_appointment_request P (Appointment.id A) b u now db = (inr a', db') ->
  (Appointment.patient_id a' = Appointment.patient_id A
   /\ Appointment.doctor_id a' = Appointment.doctor_id A)
  /\ forall key B, get key db = Some B ->
       exists B', get key db' = Some B'
         /\ Appointment.patient_id B' = Appointment.patient_id B
         /\ Appointment.doctor_id B' = Appointment.doctor_id B.
Proof.
  intros HA. unfold update_appointment_request.
  destruct (AppointmentUpdate.model_validate P b) as [e|appointment_in]; [discriminate|].
  rewrite update_appointment_eq, HA.
  destruct (Appointment.patient_id A =? User.id u); [|discriminate].
  set (obj := fold_left setattr (AppointmentUpdate.model_dump_exclude_unset appointment_in) A).
  destruct (fold_setattr_unassignable
              (AppointmentUpdate.model_dump_exclude_unset appointment_in) A)
    as (Hid & Hp & Hd).
  fold obj in Hid, Hp, Hd.
  destruct (add_commit_refresh_cases A obj now db)
    as [(Hm & E) | [(Hm & Hn & E) | (Hm & Hn & E)]]; rewrite E; clear E.
  - intros H. injection H as Ha Hdb. subst a' db'.
    split; [split; assumption|].
    intros key B HB. exists B. repeat split. exact HB.
  - discriminate.
  - intros H. injection H as Ha Hdb. subst a' db'.
    split; [split; assumption|].
    intros key B HB. unfold get. simpl.
    set (row := Appointment.set_updated_at (Some now) obj).
    assert (Hrow : Appointment.id row = Appointment.id A) by exact Hid.
    destruct (Z.eq_dec key (Appointment.id A)) as [K|K].
    + subst key. exists row. rewrite HA in HB. injection HB as HB. subst B.
      split; [|split; assumption].
      rewrite <- Hrow. apply (find_replace_row_same row (appointment db) A).
      rewrite Hrow. exact HA.
    + exists B. split; [|split; reflexivity].
      rewrite find_replace_row_other by congruence. exact HB.
Qed.

(** ** Read and update share their access control *)

Lemma add_commit_refresh_not_turned_away
    (loaded obj : Appointment.t) (now : datetime) (db : DB) :
  turned_away (Session.add_commit_refresh loaded obj now db) = None.
Proof.
  destruct (add_commit_refresh_cases loaded obj now db)
    as [(_ & E) | [(_ & _ & E) | (_ & _ & E)]]; rewrite E; reflexivity.
Qed.

(** For every actor, appointment id, payload and store, the access
    control of the update ends as the access control of the read does:
    turned away with the same exception, or let through. In particular
    the update is permitted if and only if the read is. *)
Lemma update_permitted_iff_read_permitted
    (appointment_id : Z) (appointment_in : AppointmentUpdate.t) (u : User.t)
    (now : datetime) (db : DB) :
  turned_away (update_appointment appointment_id appointment_in u now db)
    = turned_away (read_appointment appointment_id u db)
  /\ (permitted (update_appointment appointment_id appointment_in u now db)
      <-> permitted (read_appointment appointment_id u db)).
Proof.
  assert (E : turned_away (update_appointment appointment_id appointment_in u now db)
              = turned_away (read_appointment appointment_id u db)).
  { rewrite update_appointment_eq, read_appointment_eq.
    destruct (get appointment_id db) as [a|]; [|reflexivity].
    destruct (Appointment.patient_id a =? User.id u); [|reflexivity].
    apply add_commit_refresh_not_turned_away. }
  split; [exact E|]. unfold permitted. rewrite E. tauto.
Qed.

(** On an existing appointment both let exactly its patient through. *)
Lemma read_permitted_iff_patient (A : Appointment.t) (u : User.t) (db : DB) :
  get (Appointment.id A) db = Some A ->
  permitted (read_appointment (Appointment.id A) u db)
  <-> User.id u = Appointment.patient_id A.
Proof.
  intros HA. unfold permitted. rewrite read_appointment_eq, HA.
  destruct (Z.eqb_spec (Appointment.patient_id A) (User.id u)) as [E|E]; simpl.
  - split; [intros _; symmetry; exact E | reflexivity].
  - split; [discriminate | intros K; symmetry in K; contradiction].
Qed.

(** ** Failure leaves the store *)

(** C10. Every update and every delete that fails, with [NotFound], with
    [Forbidden] or with any other exception, ends in the store it
    started from: no row is changed and none is removed. *)
Theorem failed_update_or_delete_leaves_store
    (appointment_id : Z) (appointment_in : AppointmentUpdate.t) (u : User.t)
    (now : datetime) (db : DB) :
  (forall e,
     fst (update_appointment appointment_id appointment_in u now db) = inl e ->
     snd (update_appointment appointment_id appointment_in u now db) = db)
  /\ (forall e,
        fst (delete_appointment appointment_id u db) = inl e ->
        snd (delete_appointment appointment_id u db) = db).
Proof.
  split; intros e.
  - rewrite update_appointment_eq.
    destruct (get appointment_id db) as [a|]; [|reflexivity].
    destruct (Appointment.patient_id a =? User.id u); [|reflexivity].
    destruct (add_commit_refresh_cases a
                (fold_left setattr
                   (AppointmentUpdate.model_dump_exclude_unset appointment_in) a) now db)
      as [(_ & E) | [(_ & _ & E) | (_ & _ & E)]]; rewrite E; simpl;
      (reflexivity || discriminate).
  - rewrite delete_appointment_eq.
    destruct (get appointment_id db) as [a|]; [|reflexivity].
    destruct (negb (Appointment.patient_id a =? User.id u) && negb (User.is_superuser u));
      simpl; (reflexivity || discriminate).
Qed.

Lemma failed_update_or_delete_leaves_store_witness :
  snd (update_appointment 9 Scenario.completed Scenario.P1 Scenario.t1 Scenario.booked)
    = Scenario.booked
  /\ snd (delete_appointment 1 Scenario.D1 Scenario.booked) = Scenario.booked
  /\ snd (update_appointment 1 Scenario.completed Scenario.P2 Scenario.t1 Scenario.booked)
     = Scenario.booked.
Proof.
  split; [|split].
  - exact (proj1 (failed_update_or_delete_leaves_store 9 Scenario.completed Scenario.P1
                    Scenario.t1 Scenario.booked) NotFound eq_refl).
  - exact (proj2 (failed_update_or_delete_leaves_store 1 Scenario.completed Scenario.D1
                    Scenario.t1 Scenario.booked) Forbidden eq_refl).
  - exact (proj1 (failed_update_or_delete_leaves_store 1 Scenario.completed Scenario.P2
                    Scenario.t1 Scenario.booked) no_id_on_list eq_refl).
Defined.

(** * Further properties of the endpoints *)

(** ** Equality tests *)

Lemma option_eqb_refl {A : Type} (eqb : A -> A -> bool) (o : option A) :
  (forall x, eqb x x = true) -> option_eqb eqb o o = true.
Proof. intros H. destruct o; simpl; [apply H | reflexivity]. Qed.

Lemma option_eqb_true {A : Type} (eqb : A -> A -> bool) (o o' : option A) :
  (forall x y, eqb x y = true -> x = y) -> option_eqb eqb o o' = true -> o = o'.
Proof.
  intros H. destruct o as [x|], o' as [y|]; simpl; try discriminate; try reflexivity.
  intros E. f_equal. apply H. exact E.
Qed.

Lemma AppointmentStatus_eqb_refl (s : AppointmentStatus) :
  AppointmentStatus_eqb s s = true.
Proof. destruct s; reflexivity. Qed.

Lemma modified_refl (a : Appointment.t) : Session.modified a a = false.
Proof.
  unfold Session.modified.
  rewrite (option_eqb_refl AppointmentStatus_eqb), !(option_eqb_refl Z.eqb),
    (option_eqb_refl Bool.eqb), !(option_eqb_refl String.eqb);
    auto using AppointmentStatus_eqb_refl, Z.eqb_refl, Bool.eqb_reflx, String.eqb_refl.
Qed.

(** ** The loop of [setattr] over the dump is the sparse patch *)

Lemma fold_dump_sparse_patch (u : AppointmentUpdate.t) (a : Appointment.t) :
  fold_left setattr (AppointmentUpdate.model_dump_exclude_unset u) a = sparse_patch u a.
Proof.
  destruct u as [f1 f2 f3 f4 f5 f6 f7 f8 f9]. destruct a.
  unfold AppointmentUpdate.model_dump_exclude_unset, sparse_patch. simpl.
  destruct f1, f2, f3, f4, f5, f6, f7, f8, f9; reflexivity.
Qed.

Lemma not_modified_sparse_patch (u : AppointmentUpdate.t) (a : Appointment.t) :
  Session.modified a (sparse_patch u a) = false -> sparse_patch u a = a.
Proof.
  unfold Session.modified. intros H. apply negb_false_iff in H.
  rewrite !andb_true_iff in H.
  destruct H as [[[[[[[[H1 H2] H3] H4] H5] H6] H7] H8] H9].
  simpl in *.
  apply AppointmentStatus_eqb_eq in H1.
  apply (option_eqb_true Z.eqb) in H2; [|intros x y E; apply Z.eqb_eq; exact E].
  apply (option_eqb_true Z.eqb) in H3; [|intros x y E; apply Z.eqb_eq; exact E].
  apply (option_eqb_true Bool.eqb) in H4; [|intros x y E; apply Bool.eqb_prop; exact E].
  apply (option_eqb_true String.eqb) in H5; [|intros x y E; apply String.eqb_eq; exact E].
  apply (option_eqb_true String.eqb) in H6; [|intros x y E; apply String.eqb_eq; exact E].
  apply (option_eqb_true String.eqb) in H7; [|intros x y E; apply String.eqb_eq; exact E].
  apply (option_eqb_true String.eqb) in H8; [|intros x y E; apply String.eqb_eq; exact E].
  apply (option_eqb_true String.eqb) in H9; [|intros x y E; apply String.eqb_eq; exact E].
  unfold sparse_patch. destruct a; simpl in *. congruence.
Qed.

(** ** What a successful create or update did *)

Lemma create_appointment_request_inv
    (P : Pydantic) (b : body) (u : User.t) (now : datetime)
    (db db' : DB) (a : Appointment.t) :
  create_appointment_request P b u now db = (inr a, db') ->
  exists appointment_in,
    AppointmentCreate.model_validate P b = inr appointment_in
    /\ Session.doctor_exists (AppointmentCreate.doctor_id appointment_in) db = true
    /\ a = Appointment_init appointment_in (User.id u) (appointment_id_seq db) now
    /\ db' = mkDB (doctor db) (appointment db ++ [a]) (appointment_id_seq db + 1).
Proof.
  unfold create_appointment_request.
  destruct (AppointmentCreate.model_validate P b) as [e|appointment_in]; [discriminate|].
  unfold create_appointment, Session.add_commit_refresh_new, bind, get_db, put_db, ret, raise.
  simpl.
  destruct (Session.doctor_exists (AppointmentCreate.doctor_id appointment_in) db) eqn:Hd;
    [|discriminate].
  intros H. injection H as Ha Hdb. exists appointment_in. subst a db'.
  repeat split; (reflexivity || assumption).
Qed.

Lemma update_appointment_inv
    (A : Appointment.t) (appointment_in : AppointmentUpdate.t) (u : User.t)
    (now : datetime) (db db' : DB) (a' : Appointment.t) :
  get (Appointment.id A) db = Some A ->
  update_appointment (Appointment.id A) appointment_in u now db = (inr a', db') ->
  Appointment.patient_id A = User.id u
  /\ ((sparse_patch appointment_in A = A /\ a' = A /\ db' = db)
      \/ (Session.modified A (sparse_patch appointment_in A) = true
          /\ a' = Appointment.set_updated_at (Some now) (sparse_patch appointment_in A)
          /\ db' = mkDB (doctor db) (Session.replace_row a' (appointment db))
                     (appointment_id_seq db))).
Proof.
  intros HA. rewrite update_appointment_eq, HA, fold_dump_sparse_patch.
  destruct (Z.eqb_spec (Appointment.patient_id A) (User.id u)) as [Hu|Hu]; [|discriminate].
  destruct (add_commit_refresh_cases A (sparse_patch appointment_in A) now db)
    as [(Hm & E) | [(Hm & Hn & E) | (Hm & Hn & E)]]; rewrite E; clear E;
    intros H; try discriminate; injection H as Ha Hdb; subst a' db'.
  - split; [exact Hu|]. left. apply not_modified_sparse_patch in Hm.
    repeat split; assumption.
  - split; [exact Hu|]. right. repeat split. exact Hm.
Qed.

Lemma find_filter_other (key k : Z) (rows : list Appointment.t) :
  key <> k ->
  find (fun row => Appointment.id row =? key)
    (filter (fun r => negb (Appointment.id r =? k)) rows)
  = find (fun row => Appointment.id row =? key) rows.
Proof.
  intros Hne. induction rows as [|r rows IH]; simpl.
  - reflexivity.
  - destruct (Z.eqb_spec (Appointment.id r) k) as [E|E]; simpl.
    + destruct (Z.eqb_spec (Appointment.id r) key); [congruence | exact IH].
    + destruct (Appointment.id r =? key); [reflexivity | exact IH].
Qed.

(** ** Reads *)

(** X2. The two read endpoints never write: whatever the actor, the
    arguments and the outcome (a result or an exception), the store after
    [read_appointment] and after [read_appointments] is the store
    before. *)
Theorem reads_leave_store
    (appointment_id skip limit : Z) (u : User.t) (db : DB) :
  snd (read_appointment appointment_id u db) = db
  /\ snd (read_appointments skip limit u db) = db.
Proof.
  split.
  - rewrite read_appointment_eq.
    destruct (get appointment_id db) as [a|]; [|reflexivity].
    destruct (Appointment.patient_id a =? User.id u); reflexivity.
  - unfold read_appointments.
    destruct (String.eqb (User.role u) "doctor"); [reflexivity|].
    unfold Query.all. simpl.
    destruct (skip <? 0); [reflexivity|].
    destruct (limit <? 0); reflexivity.
Qed.

(** ** Update *)

Lemma map_id_replace_row (row : Appointment.t) (rows : list Appointment.t) :
  map Appointment.id (Session.replace_row row rows) = map Appointment.id rows.
Proof.
  induction rows as [|r rows IH]; simpl.
  - reflexivity.
  - rewrite IH. destruct (Z.eqb_spec (Appointment.id r) (Appointment.id row)) as [E|E];
      [rewrite E|]; reflexivity.
Qed.

Lemma get_after_update
    (A : Appointment.t) (appointment_in : AppointmentUpdate.t) (u : User.t)
    (now : datetime) (db db' : DB) (a' : Appointment.t) :
  get (Appointment.id A) db = Some A ->
  update_appointment (Appointment.id A) appointment_in u now db = (inr a', db') ->
  get (Appointment.id A) db' = Some a'
  /\ Appointment.id a' = Appointment.id A
  /\ Appointment.patient_id a' = User.id u.
Proof.
  intros HA H. destruct (update_appointment_inv _ _ _ _ _ _ _ HA H)
    as (Hu & [(Hs & Ha & Hdb) | (Hm & Ha & Hdb)]).
  - subst a' db'. repeat split; assumption.
  - assert (Hid : Appointment.id a' = Appointment.id A) by (subst a'; reflexivity).
    split; [|split; [exact Hid | subst a'; exact Hu]].
    rewrite Hdb. unfold get. simpl. rewrite <- Hid.
    apply (find_replace_row_same a' (appointment db) A). rewrite Hid. exact HA.
Qed.

Lemma optional_absent {A : Type} (validate : json -> option A) (key : string) (b : body) :
  lookup key b = None -> optional validate key b = inr None.
Proof. intros H. unfold optional. rewrite H. reflexivity. Qed.

(** ** Create *)

Lemma find_app_some {A : Type} (p : A -> bool) (l l' : list A) (x : A) :
  find p l = Some x -> find p (l ++ l') = Some x.
Proof.
  induction l as [|y l IH]; simpl.
  - discriminate.
  - destruct (p y); [intros H; exact H | exact IH].
Qed.

Lemma required_absent {A : Type} (validate : json -> option A) (key : string) (b : body) :
  lookup key b = None -> required validate key b = inl (RequestValidationError key).
Proof. intros H. unfold required. rewrite H. reflexivity. Qed.

Lemma required_failure {A : Type} (validate : json -> option A) (key : string)
    (b : body) (e : exn) :
  required validate key b = inl e -> e = RequestValidationError key.
Proof.
  unfold required, checked. destruct (lookup key b) as [j|].
  - destruct (validate j); [discriminate | intros H; injection H as H; congruence].
  - intros H. injection H as H. congruence.
Qed.

Lemma defaulted_failure {A : Type} (validate : json -> option A) (key : string)
    (default : A) (b : body) (e : exn) :
  defaulted validate key default b = inl e -> e = RequestValidationError key.
Proof.
  unfold defaulted, checked. destruct (lookup key b) as [j|]; [|discriminate].
  destruct (validate j); [discriminate | intros H; injection H as H; congruence].
Qed.

(** X11. A create request whose body lacks [doctor_id] or
    [scheduled_date] is rejected with a validation error, before the
    endpoint runs: nothing is stored and no key is drawn. *)
Theorem create_appointment_missing_required
    (P : Pydantic) (b : body) (u : User.t) (now : datetime) (db : DB) :
  lookup "doctor_id" b = None \/ lookup "scheduled_date" b = None ->
  exists loc,
    create_appointment_request P b u now db = (inl (RequestValidationError loc), db).
Proof.
  intros H. unfold create_appointment_request, AppointmentCreate.model_validate.
  destruct (required (validate_int P) "doctor_id" b) as [e|d] eqn:Ed.
  - apply required_failure in Ed. subst e. eexists. reflexivity.
  - destruct H as [H|H]; [rewrite (required_absent _ _ _ H) in Ed; discriminate|].
    simpl.
    destruct (defaulted validate_AppointmentType "appointment_type" CONSULTATION b)
      as [e|t] eqn:Et.
    + apply defaulted_failure in Et. subst e. eexists. reflexivity.
    + simpl. rewrite (required_absent _ _ _ H). eexists. reflexivity.
Qed.

Lemma create_appointment_missing_required_witness :
  exists loc,
    create_appointment_request Scenario.strict [("doctor_id", JNumber 7)] Scenario.P1
      Scenario.t0 Scenario.empty
    = (inl (RequestValidationError loc), Scenario.empty).
Proof.
  apply (create_appointment_missing_required Scenario.strict [("doctor_id", JNumber 7)]
           Scenario.P1 Scenario.t0 Scenario.empty).
  right. reflexivity.
Defined.

Lemma key_invariant_booked_twice : key_invariant Scenario.booked_twice.
Proof.
  split.
  - simpl. repeat constructor; simpl; intuition discriminate.
  - intros row [H|[H|[]]]; subst row; reflexivity.
Qed.

(** ** The key invariant *)

Lemma create_failure_store
    (P : Pydantic) (b : body) (u : User.t) (now : datetime) (db : DB) (e : exn) :
  fst (create_appointment_request P b u now db) = inl e ->
  snd (create_appointment_request P b u now db) = db.
Proof.
  unfold create_appointment_request.
  destruct (AppointmentCreate.model_validate P b) as [e'|appointment_in]; [reflexivity|].
  unfold create_appointment, Session.add_commit_refresh_new, bind, get_db, put_db, ret, raise.
  simpl.
  destruct (Session.doctor_exists (AppointmentCreate.doctor_id appointment_in) db);
    [discriminate | reflexivity].
Qed.

Lemma update_request_failure_store
    (P : Pydantic) (appointment_id : Z) (b : body) (u : User.t) (now : datetime)
    (db : DB) (e : exn) :
  fst (update_appointment_request P appointment_id b u now db) = inl e ->
  snd (update_appointment_request P appointment_id b u now db) = db.
Proof.
  unfold update_appointment_request.
  destruct (AppointmentUpdate.model_validate P b) as [e'|appointment_in]; [reflexivity|].
  rewrite update_appointment_eq.
  destruct (get appointment_id db) as [a|]; [|reflexivity].
  destruct (Appointment.patient_id a =? User.id u); [|reflexivity].
  destruct (add_commit_refresh_cases a
              (fold_left setattr
                 (AppointmentUpdate.model_dump_exclude_unset appointment_in) a) now db)
    as [(_ & E) | [(_ & _ & E) | (_ & _ & E)]]; rewrite E; simpl;
    (reflexivity || discriminate).
Qed.

Lemma NoDup_snoc {A : Type} (l : list A) (x : A) :
  NoDup l -> ~ In x l -> NoDup (l ++ [x]).
Proof.
  intros Hl Hx. apply NoDup_app.
  - exact Hl.
  - constructor; [intros [] | constructor].
  - intros y Hy [Hy'|[]]. subst y. contradiction.
Qed.

Lemma map_id_filter (p : Z -> bool) (rows : list Appointment.t) :
  map Appointment.id (filter (fun r => p (Appointment.id r)) rows)
  = filter p (map Appointment.id rows).
Proof.
  induction rows as [|r rows IH]; simpl.
  - reflexivity.
  - destruct (p (Appointment.id r)); simpl; rewrite IH; reflexivity.
Qed.

(** X16. The three writing endpoints keep the primary key sound: if no
    two appointments share an id and the sequence is above every id,
    the same holds after a create request, after an update request and
    after a delete, whether they succeed or fail. *)
Theorem writes_keep_key_invariant
    (P : Pydantic) (appointment_id : Z) (b b' : body) (u : User.t)
    (now : datetime) (db : DB) :
  key_invariant db ->
  key_invariant (snd (create_appointment_request P b u now db))
  /\ key_invariant (snd (update_appointment_request P appointment_id b' u now db))
  /\ key_invariant (snd (delete_appointment appointment_id u db)).
Proof.
  intros Hinv. split; [|split].
  - destruct (create_appointment_request P b u now db) as [[e|a] db'] eqn:H.
    + pose proof (create_failure_store P b u now db e) as K. rewrite H in K.
      simpl in *. rewrite (K eq_refl). exact Hinv.
    + simpl. destruct (create_appointment_request_inv _ _ _ _ _ _ _ H)
        as (appointment_in & _ & _ & Ha & Hdb).
      assert (Hid : Appointment.id a = appointment_id_seq db) by (subst a; reflexivity).
      destruct Hinv as [Hnd Hlt]. rewrite Hdb. split; simpl.
      * rewrite map_app. simpl. apply NoDup_snoc; [exact Hnd|].
        intros Hin. apply in_map_iff in Hin. destruct Hin as (row & Hrow & Hin).
        specialize (Hlt row Hin). lia.
      * intros row Hin. apply in_app_or in Hin. destruct Hin as [Hin|[Hin|[]]].
        -- specialize (Hlt row Hin). lia.
        -- subst row. lia.
  - destruct (update_appointment_request P appointment_id b' u now db) as [[e|a'] db'] eqn:H.
    + pose proof (update_request_failure_store P appointment_id b' u now db e) as K.
      rewrite H in K. simpl in *. rewrite (K eq_refl). exact Hinv.
    + simpl. revert H. unfold update_appointment_request.
      destruct (AppointmentUpdate.model_validate P b') as [e'|appointment_in]; [discriminate|].
      rewrite update_appointment_eq.
      destruct (get appointment_id db) as [A|] eqn:HA; [|discriminate].
      destruct (Appointment.patient_id A =? User.id u); [|discriminate].
      destruct (add_commit_refresh_cases A
                  (fold_left setattr
                     (AppointmentUpdate.model_dump_exclude_unset appointment_in) A) now db)
        as [(_ & E) | [(_ & _ & E) | (_ & _ & E)]]; rewrite E; clear E;
        intros H; try discriminate; injection H as Ha Hdb; subst db'; [exact Hinv|].
      destruct Hinv as [Hnd Hlt]. split; simpl.
      * rewrite map_id_replace_row. exact Hnd.
      * intros row Hin. apply (in_map Appointment.id) in Hin.
        rewrite map_id_replace_row in Hin. apply in_map_iff in Hin.
        destruct Hin as (row' & Hrow' & Hin). rewrite <- Hrow'. apply Hlt. exact Hin.
  - rewrite delete_appointment_eq.
    destruct (get appointment_id db) as [A|]; [|exact Hinv].
    destruct (negb (Appointment.patient_id A =? User.id u) && negb (User.is_superuser u));
      [exact Hinv|].
    destruct Hinv as [Hnd Hlt]. split; simpl.
    + rewrite (map_id_filter (fun k => negb (k =? Appointment.id A))).
      apply NoDup_filter. exact Hnd.
    + intros row Hin. apply filter_In in Hin. apply Hlt. exact (proj1 Hin).
Qed.

Lemma writes_keep_key_invariant_witness :
  key_invariant (snd (create_appointment_request Scenario.strict Scenario.booking
                        Scenario.P1 Scenario.t1 Scenario.booked_twice))
  /\ key_invariant (snd (update_appointment_request Scenario.strict 1 Scenario.postpone
                           Scenario.P1 Scenario.t1 Scenario.booked_twice))
  /\ key_invariant (snd (delete_appointment 1 Scenario.P1 Scenario.booked_twice)).
Proof.
  apply (writes_keep_key_invariant Scenario.strict 1 Scenario.booking Scenario.postpone
           Scenario.P1 Scenario.t1 Scenario.booked_twice).
  exact key_invariant_booked_twice.
Defined.

(** ** Validation of the enumerations *)

Lemma validate_status_inv (j : json) (s : AppointmentStatus) :
  validate_AppointmentStatus j = Some s -> j = JString (AppointmentStatus_value s).
Proof.
  destruct j as [| |z|str]; try discriminate.
  unfold validate_AppointmentStatus, validate_enum. intros H.
  apply find_some in H. destruct H as [_ H]. apply String.eqb_eq in H.
  rewrite H. reflexivity.
Qed.

Lemma validate_type_inv (j : json) (t : AppointmentType) :
  validate_AppointmentType j = Some t -> j = JString (AppointmentType_value t).
Proof.
  destruct j as [| |z|str]; try discriminate.
  unfold validate_AppointmentType, validate_enum. intros H.
  apply find_some in H. destruct H as [_ H]. apply String.eqb_eq in H.
  rewrite H. reflexivity.
Qed.

(** X21. The values of the two enumerations identify their members:
    validating the value string of a status (of an appointment type)
    gives back that member, and a JSON value is accepted as a status (a
    type) only if it is the value string of the member it is read as. *)
Theorem enumeration_values_round_trip :
  (forall s, validate_AppointmentStatus (JString (AppointmentStatus_value s)) = Some s)
  /\ (forall j s, validate_AppointmentStatus j = Some s ->
        j = JString (AppointmentStatus_value s))
  /\ (forall t, validate_AppointmentType (JString (AppointmentType_value t)) = Some t)
  /\ (forall j t, validate_AppointmentType j = Some t ->
        j = JString (AppointmentType_value t)).
Proof.
  split; [|split; [|split]].
  - intros s. destruct s; reflexivity.
  - exact validate_status_inv.
  - intros t. destruct t; reflexivity.
  - exact validate_type_inv.
Qed.

Lemma validate_status_unknown (s : string) :
  (forall m, AppointmentStatus_value m <> s) ->
  validate_AppointmentStatus (JString s) = None.
Proof.
  intros H. destruct (validate_AppointmentStatus (JString s)) as [m|] eqn:E;
    [|reflexivity].
  apply validate_status_inv in E. injection E as E. exfalso. exact (H m (eq_sym E)).
Qed.

(** X22. An update request whose [status] is a string other than the
    six status values is rejected with a validation error on [status],
    before the endpoint runs: the answer does not depend on the actor or
    on whether the appointment exists, and nothing is written. *)
Theorem update_rejects_unknown_status
    (P : Pydantic) (appointment_id : Z) (b : body) (s : string) (u : User.t)
    (now : datetime) (db : DB) :
  lookup "status" b = Some (JString s) ->
  (forall m, AppointmentStatus_value m <> s) ->
  update_appointment_request P appointment_id b u now db
  = (inl (RequestValidationError "status"), db).
Proof.
  intros Hb Hs. unfold update_appointment_request, AppointmentUpdate.model_validate.
  unfold optional at 1. rewrite Hb. unfold checked.
  rewrite (validate_status_unknown s Hs). reflexivity.
Qed.

Lemma update_rejects_unknown_status_witness :
  update_appointment_request Scenario.strict 9 [("status", JString "done")] Scenario.P2
    Scenario.t1 Scenario.booked
  = (inl (RequestValidationError "status"), Scenario.booked).
Proof.
  apply (update_rejects_unknown_status Scenario.strict 9 [("status", JString "done")]
           "done" Scenario.P2 Scenario.t1 Scenario.booked).
  - reflexivity.
  - intros m. destruct m; discriminate.
Defined.

(** * The endpoints on the declared mapping *)

(** ** Mapper configuration *)

Lemma configure_declared :
  configure_mappers declared_relationships = inl mapping_error.
Proof. reflexivity. Qed.

Lemma with_mappers_cases {A : Type} (relationships : list relationship)
    (endpoint : M A) (db : DB) :
  (exists e, with_mappers relationships endpoint db = (inl e, db))
  \/ with_mappers relationships endpoint db = endpoint db.
Proof.
  unfold with_mappers. destruct (configure_mappers relationships) as [e|[]].
  - left. exists e. reflexivity.
  - right. reflexivity.
Qed.



(** ** Create *)

Lemma create_appointment_cases
    (x : AppointmentCreate.t) (u : User.t) (now : datetime) (db : DB) :
  create_appointment x u now db
    = (inr (Appointment_init x (User.id u) (appointment_id_seq db) now),
       mkDB (doctor db)
         (appointment db ++ [Appointment_init x (User.id u) (appointment_id_seq db) now])%list
         (appointment_id_seq db + 1))
  \/ exists e, create_appointment x u now db = (inl e, db).
Proof.
  unfold create_appointment, Session.add_commit_refresh_new, bind, get_db, put_db, ret, raise.
  simpl. destruct (Session.doctor_exists (AppointmentCreate.doctor_id x) db).
  - left. reflexivity.
  - right. eexists. reflexivity.
Qed.

Lemma mapped_create_request_cases
    (relationships : list relationship) (P : Pydantic) (b : body) (u : User.t)
    (now : datetime) (db : DB) :
  (exists e, Mapped.create_appointment_request relationships P b u now db = (inl e, db))
  \/ exists x,
       Mapped.create_appointment_request relationships P b u now db
       = (inr (Appointment_init x (User.id u) (appointment_id_seq db) now),
          mkDB (doctor db)
            (appointment db
             ++ [Appointment_init x (User.id u) (appointment_id_seq db) now])%list
            (appointment_id_seq db + 1)).
Proof.
  unfold Mapped.create_appointment_request.
  destruct (AppointmentCreate.model_validate P b) as [e|x].
  - left. exists e. reflexivity.
  - unfold Mapped.create_appointment.
    destruct (with_mappers_cases relationships (create_appointment x u now) db)
      as [[e E]|E]; rewrite E.
    + left. exists e. reflexivity.
    + destruct (create_appointment_cases x u now db) as [K|[e K]]; rewrite K.
      * right. exists x. reflexivity.
      * left. exists e. reflexivity.
Qed.


(** X13. A create request leaves what is stored alone, whatever
    relationships are declared and whatever its outcome: every
    appointment that could be fetched before is fetched unchanged after,
    the [doctor] table is the same, and the [appointment] table has
    grown by one row at most. *)
Theorem create_request_keeps_existing_rows
    (relationships : list relationship) (P : Pydantic) (b : body) (u : User.t)
    (now : datetime) (db : DB) :
  (forall key B, get key db = Some B ->
     get key (snd (Mapped.create_appointment_request relationships P b u now db)) = Some B)
  /\ doctor (snd (Mapped.create_appointment_request relationships P b u now db)) = doctor db
  /\ (List.length
        (appointment (snd (Mapped.create_appointment_request relationships P b u now db)))
      <= List.length (appointment db) + 1)%nat.
Proof.
  destruct (mapped_create_request_cases relationships P b u now db) as [[e E]|[x E]];
    rewrite E; simpl.
  - repeat split; [intros key B H; exact H | lia].
  - repeat split.
    + intros key B H. unfold get. simpl. apply find_app_some. exact H.
    + rewrite length_app. simpl. lia.
Qed.

(** ** Update *)

Lemma update_appointment_failure_store
    (appointment_id : Z) (appointment_in : AppointmentUpdate.t) (u : User.t)
    (now : datetime) (db : DB) (e : exn) :
  fst (update_appointment appointment_id appointment_in u now db) = inl e ->
  snd (update_appointment appointment_id appointment_in u now db) = db.
Proof.
  rewrite update_appointment_eq.
  destruct (get appointment_id db) as [a|]; [|reflexivity].
  destruct (Appointment.patient_id a =? User.id u); [|reflexivity].
  destruct (add_commit_refresh_cases a
              (fold_left setattr
                 (AppointmentUpdate.model_dump_exclude_unset appointment_in) a) now db)
    as [(_ & E) | [(_ & _ & E) | (_ & _ & E)]]; rewrite E; simpl;
    (reflexivity || discriminate).
Qed.

(** The store after an update: the store before, or the store before
    with the rows of that id replaced by one row of that id. *)
Lemma update_appointment_store
    (appointment_id : Z) (appointment_in : AppointmentUpdate.t) (u : User.t)
    (now : datetime) (db : DB) :
  snd (update_appointment appointment_id appointment_in u now db) = db
  \/ exists row,
       Appointment.id row = appointment_id
       /\ snd (update_appointment appointment_id appointment_in u now db)
          = mkDB (doctor db) (Session.replace_row row (appointment db))
              (appointment_id_seq db).
Proof.
  rewrite update_appointment_eq.
  destruct (get appointment_id db) as [a|] eqn:Ha; [|left; reflexivity].
  destruct (Appointment.patient_id a =? User.id u); [|left; reflexivity].
  rewrite fold_dump_sparse_patch.
  destruct (add_commit_refresh_cases a (sparse_patch appointment_in a) now db)
    as [(_ & E) | [(_ & _ & E) | (_ & _ & E)]]; rewrite E; simpl.
  - left. reflexivity.
  - left. reflexivity.
  - right. eexists. split; [|reflexivity]. simpl. apply (get_id _ db). exact Ha.
Qed.

Lemma mapped_update_cases
    (relationships : list relationship) (appointment_id : Z)
    (appointment_in : AppointmentUpdate.t) (u : User.t) (now : datetime) (db : DB) :
  (exists e, Mapped.update_appointment relationships appointment_id appointment_in u now db
             = (inl e, db))
  \/ Mapped.update_appointment relationships appointment_id appointment_in u now db
     = update_appointment appointment_id appointment_in u now db.
Proof.
  unfold Mapped.update_appointment. apply with_mappers_cases.
Qed.

Lemma mapped_update_request_cases
    (relationships : list relationship) (P : Pydantic) (appointment_id : Z)
    (b : body) (u : User.t) (now : datetime) (db : DB) :
  (exists e, Mapped.update_appointment_request relationships P appointment_id b u now db
             = (inl e, db))
  \/ Mapped.update_appointment_request relationships P appointment_id b u now db
     = update_appointment_request P appointment_id b u now db.
Proof.
  unfold Mapped.update_appointment_request, update_appointment_request.
  destruct (AppointmentUpdate.model_validate P b) as [e|x].
  - left. exists e. reflexivity.
  - apply mapped_update_cases.
Qed.

(** C5. For every existing appointment [A] and every update whose
    payload sets only the [status] field, whoever sends it, whatever
    relationships are declared and whatever the outcome: the appointment
    stored under [A.id] afterwards agrees with [A] on every column other
    than [status] and [updated_at]; and the appointment that the update
    returns, when the update gets through, has the status of the
    payload, agrees with [A] on every other column but [updated_at], and
    is that stored row. *)
Theorem update_status_only_frame
    (relationships : list relationship) (A : Appointment.t)
    (appointment_in : AppointmentUpdate.t) (v : option AppointmentStatus)
    (u : User.t) (now : datetime) (db : DB) :
  get (Appointment.id A) db = Some A ->
  AppointmentUpdate.model_dump_exclude_unset appointment_in
    = [AppointmentUpdate.status_item v] ->
  (exists A',
     get (Appointment.id A)
       (snd (Mapped.update_appointment relationships (Appointment.id A)
               appointment_in u now db)) = Some A'
     /\ same_but_status_and_updated_at A' A)
  /\ (forall a',
        fst (Mapped.update_appointment relationships (Appointment.id A)
               appointment_in u now db) = inr a' ->
        Appointment.status a' = v
        /\ same_but_status_and_updated_at a' A
        /\ get (Appointment.id A)
             (snd (Mapped.update_appointment relationships (Appointment.id A)
                     appointment_in u now db)) = Some a').
Proof.
  intros HA Hdump.
  assert (Hsame : same_but_status_and_updated_at A A) by (repeat split).
  destruct (mapped_update_cases relationships (Appointment.id A) appointment_in u now db)
    as [[e E]|E]; rewrite E.
  - simpl. split; [exists A; split; assumption | discriminate].
  - destruct (update_appointment (Appointment.id A) appointment_in u now db)
      as [[e|a'] db'] eqn:K.
    + pose proof (update_appointment_failure_store (Appointment.id A) appointment_in
                    u now db e) as F.
      rewrite K in F. simpl in *. rewrite (F eq_refl).
      split; [exists A; split; assumption | discriminate].
    + destruct (update_appointment_status_only A appointment_in v u now db db' a'
                  HA Hdump K) as (H1 & H2 & H3).
      simpl. split.
      * exists a'. split; assumption.
      * intros a'' H. injection H as H. subst a''.
        split; [exact H1 | split; [exact H2 | exact H3]].
Qed.

Lemma update_status_only_frame_witness :
  (exists A',
     get 1 (snd (Mapped.update_appointment declared_relationships 1 Scenario.completed
                   Scenario.P1 Scenario.t1 Scenario.booked)) = Some A'
     /\ same_but_status_and_updated_at A' Scenario.A)
  /\ (forall a',
        fst (Mapped.update_appointment declared_relationships 1 Scenario.completed
               Scenario.P1 Scenario.t1 Scenario.booked) = inr a' ->
        Appointment.status a' = Some COMPLETED
        /\ same_but_status_and_updated_at a' Scenario.A
        /\ get 1 (snd (Mapped.update_appointment declared_relationships 1
                         Scenario.completed Scenario.P1 Scenario.t1 Scenario.booked))
           = Some a').
Proof.
  apply (update_status_only_frame declared_relationships Scenario.A Scenario.completed
           (Some COMPLETED) Scenario.P1 Scenario.t1 Scenario.booked); reflexivity.
Defined.

(** C8. For every existing appointment [A] and every update request of
    [A.id] with any body, whoever sends it, whatever relationships are
    declared and whatever the outcome: every appointment of the store
    (the one under [A.id] too) still has a row afterwards, with the same
    [patient_id] and [doctor_id]; and the appointment that the update
    returns, when it returns one, has the [patient_id] and the
    [doctor_id] of [A]. *)
Theorem update_request_keeps_patient_and_doctor
    (relationships : list relationship) (P : Pydantic) (A : Appointment.t)
    (b : body) (u : User.t) (now : datetime) (db : DB) :
  get (Appointment.id A) db = Some A ->
  (forall key B, get key db = Some B ->
     exists B',
       get key (snd (Mapped.update_appointment_request relationships P
                       (Appointment.id A) b u now db)) = Some B'
       /\ Appointment.patient_id B' = Appointment.patient_id B
       /\ Appointment.doctor_id B' = Appointment.doctor_id B)
  /\ (forall a',
        fst (Mapped.update_appointment_request relationships P (Appointment.id A)
               b u now db) = inr a' ->
        Appointment.patient_id a' = Appointment.patient_id A
        /\ Appointment.doctor_id a' = Appointment.doctor_id A).
Proof.
  intros HA.
  destruct (mapped_update_request_cases relationships P (Appointment.id A) b u now db)
    as [[e E]|E]; rewrite E.
  - simpl. split; [|discriminate].
    intros key B HB. exists B. repeat split. exact HB.
  - destruct (update_appointment_request P (Appointment.id A) b u now db)
      as [[e|a'] db'] eqn:K.
    + pose proof (update_request_failure_store P (Appointment.id A) b u now db e) as F.
      rewrite K in F. simpl in *. rewrite (F eq_refl). split; [|discriminate].
      intros key B HB. exists B. repeat split. exact HB.
    + destruct (update_appointment_keeps_patient_and_doctor P A b u now db db' a' HA K)
        as [H1 H2].
      simpl. split; [exact H2|].
      intros a'' H. injection H as H. subst a''. exact H1.
Qed.

Lemma update_request_keeps_patient_and_doctor_witness :
  (forall key B, get key Scenario.booked_twice = Some B ->
     exists B',
       get key (snd (Mapped.update_appointment_request declared_relationships
                       Scenario.strict 1 Scenario.postpone Scenario.P1 Scenario.t1
                       Scenario.booked_twice)) = Some B'
       /\ Appointment.patient_id B' = Appointment.patient_id B
       /\ Appointment.doctor_id B' = Appointment.doctor_id B)
  /\ (forall a',
        fst (Mapped.update_appointment_request declared_relationships Scenario.strict 1
               Scenario.postpone Scenario.P1 Scenario.t1 Scenario.booked_twice) = inr a' ->
        Appointment.patient_id a' = Appointment.patient_id Scenario.A
        /\ Appointment.doctor_id a' = Appointment.doctor_id Scenario.A).
Proof.
  apply (update_request_keeps_patient_and_doctor declared_relationships Scenario.strict
           Scenario.A Scenario.postpone Scenario.P1 Scenario.t1 Scenario.booked_twice).
  reflexivity.
Defined.

(** X5. What an update leaves in the store is the old row or its sparse
    patch: for every existing appointment [A], payload, actor, set of
    declared relationships and outcome, the row stored under [A.id]
    afterwards is [A] itself or [A] with exactly the fields that the
    payload sets replaced and [updated_at] at the time of the request;
    and an appointment that the update returns is that stored row. *)
Theorem update_stores_the_sparse_patch
    (relationships : list relationship) (A : Appointment.t)
    (appointment_in : AppointmentUpdate.t) (u : User.t) (now : datetime) (db : DB) :
  get (Appointment.id A) db = Some A ->
  (get (Appointment.id A)
     (snd (Mapped.update_appointment relationships (Appointment.id A)
             appointment_in u now db)) = Some A
   \/ get (Appointment.id A)
        (snd (Mapped.update_appointment relationships (Appointment.id A)
                appointment_in u now db))
      = Some (Appointment.set_updated_at (Some now) (sparse_patch appointment_in A)))
  /\ (forall a',
        fst (Mapped.update_appointment relationships (Appointment.id A)
               appointment_in u now db) = inr a' ->
        get (Appointment.id A)
          (snd (Mapped.update_appointment relationships (Appointment.id A)
                  appointment_in u now db)) = Some a').
Proof.
  intros HA.
  destruct (mapped_update_cases relationships (Appointment.id A) appointment_in u now db)
    as [[e E]|E]; rewrite E.
  - simpl. split; [left; exact HA | discriminate].
  - destruct (update_appointment (Appointment.id A) appointment_in u now db)
      as [[e|a'] db'] eqn:K.
    + pose proof (update_appointment_failure_store (Appointment.id A) appointment_in
                    u now db e) as F.
      rewrite K in F. simpl in *. rewrite (F eq_refl).
      split; [left; exact HA | discriminate].
    + destruct (get_after_update _ _ _ _ _ _ _ HA K) as (Hget & _ & _).
      simpl. split.
      * destruct (update_appointment_inv _ _ _ _ _ _ _ HA K)
          as (_ & [(_ & Ha & _) | (_ & Ha & _)]).
        -- left. rewrite Hget, Ha. reflexivity.
        -- right. rewrite Hget, Ha. reflexivity.
      * intros a'' H. injection H as H. subst a''. exact Hget.
Qed.

Lemma update_stores_the_sparse_patch_witness :
  (get 1 (snd (Mapped.update_appointment declared_relationships 1 Scenario.reschedule
                 Scenario.P1 Scenario.t1 Scenario.booked_twice)) = Some Scenario.A
   \/ get 1 (snd (Mapped.update_appointment declared_relationships 1 Scenario.reschedule
                    Scenario.P1 Scenario.t1 Scenario.booked_twice))
      = Some (Appointment.set_updated_at (Some Scenario.t1)
                (sparse_patch Scenario.reschedule Scenario.A)))
  /\ (forall a',
        fst (Mapped.update_appointment declared_relationships 1 Scenario.reschedule
               Scenario.P1 Scenario.t1 Scenario.booked_twice) = inr a' ->
        get 1 (snd (Mapped.update_appointment declared_relationships 1
                      Scenario.reschedule Scenario.P1 Scenario.t1 Scenario.booked_twice))
        = Some a').
Proof.
  apply (update_stores_the_sparse_patch declared_relationships Scenario.A
           Scenario.reschedule Scenario.P1 Scenario.t1 Scenario.booked_twice).
  reflexivity.
Defined.

(** X6. An update touches one row at most: for every id, payload,
    actor, set of declared relationships and outcome, every other id
    keeps its row, the number of rows is the same, and the [doctor]
    table and the key sequence are untouched. *)
Theorem update_touches_one_row
    (relationships : list relationship) (appointment_id : Z)
    (appointment_in : AppointmentUpdate.t) (u : User.t) (now : datetime) (db : DB) :
  (forall key, key <> appointment_id ->
     get key (snd (Mapped.update_appointment relationships appointment_id
                     appointment_in u now db)) = get key db)
  /\ List.length
       (appointment (snd (Mapped.update_appointment relationships appointment_id
                            appointment_in u now db)))
     = List.length (appointment db)
  /\ doctor (snd (Mapped.update_appointment relationships appointment_id
                    appointment_in u now db)) = doctor db
  /\ appointment_id_seq (snd (Mapped.update_appointment relationships appointment_id
                                appointment_in u now db)) = appointment_id_seq db.
Proof.
  destruct (mapped_update_cases relationships appointment_id appointment_in u now db)
    as [[e E]|E]; rewrite E.
  - simpl. repeat split.
  - destruct (update_appointment_store appointment_id appointment_in u now db)
      as [K|(row & Hid & K)]; rewrite K.
    + repeat split.
    + simpl. repeat split.
      * intros key Hk. unfold get. simpl. apply find_replace_row_other. congruence.
      * unfold Session.replace_row. apply length_map.
Qed.

(** X7. An update request whose body names none of the nine fields of
    the update schema (an empty object, or one with only foreign keys
    such as [patient_id]) never writes: whatever the id, the actor, the
    declared relationships and the outcome, the store afterwards is the
    store before. *)
Theorem update_without_field_never_writes
    (relationships : list relationship) (P : Pydantic) (appointment_id : Z)
    (b : body) (u : User.t) (now : datetime) (db : DB) :
  (forall field, In field AppointmentUpdate_fields -> lookup field b = None) ->
  snd (Mapped.update_appointment_request relationships P appointment_id b u now db) = db.
Proof.
  intros Hb.
  destruct (mapped_update_request_cases relationships P appointment_id b u now db)
    as [[e E]|E]; rewrite E; [reflexivity|].
  unfold update_appointment_request, AppointmentUpdate.model_validate.
  rewrite !optional_absent by (apply Hb; simpl; tauto). simpl.
  rewrite update_appointment_eq.
  destruct (get appointment_id db) as [a|]; [|reflexivity].
  destruct (Appointment.patient_id a =? User.id u); [|reflexivity].
  simpl. unfold Session.add_commit_refresh. rewrite modified_refl. reflexivity.
Qed.

Lemma update_without_field_never_writes_witness :
  snd (Mapped.update_appointment_request declared_relationships Scenario.strict 1
         Scenario.no_field Scenario.P1 Scenario.t1 Scenario.booked) = Scenario.booked.
Proof.
  apply (update_without_field_never_writes declared_relationships Scenario.strict 1
           Scenario.no_field Scenario.P1 Scenario.t1 Scenario.booked).
  intros field Hf. simpl in Hf.
  repeat (destruct Hf as [Hf|Hf]; [subst field; reflexivity|]). contradiction.
Defined.

(** ** Delete *)

(** X4. A delete touches one id at most: for every id, actor, set of
    declared relationships and outcome, every other id keeps its row,
    and the [doctor] table and the key sequence are untouched (no
    cascade). *)
Theorem delete_touches_one_id
    (relationships : list relationship) (appointment_id : Z) (u : User.t) (db : DB) :
  (forall key, key <> appointment_id ->
     get key (snd (Mapped.delete_appointment relationships appointment_id u db))
     = get key db)
  /\ doctor (snd (Mapped.delete_appointment relationships appointment_id u db)) = doctor db
  /\ appointment_id_seq (snd (Mapped.delete_appointment relationships appointment_id u db))
     = appointment_id_seq db.
Proof.
  unfold Mapped.delete_appointment.
  destruct (with_mappers_cases relationships (delete_appointment appointment_id u) db)
    as [[e E]|E]; rewrite E.
  - simpl. repeat split.
  - rewrite delete_appointment_eq.
    destruct (get appointment_id db) as [a|] eqn:Ha; [|repeat split].
    destruct (negb (Appointment.patient_id a =? User.id u) && negb (User.is_superuser u));
      [repeat split|].
    simpl. repeat split.
    intros key Hk. unfold get. simpl. apply find_filter_other.
    rewrite (get_id _ _ _ Ha). exact Hk.
Qed.

(** C3, at the scenario. P1 is the patient of [A] and D1 its doctor,
    not a superuser. The specification promises that P1's delete
    succeeds and that D1's is answered [Forbidden]; on the declared
    relationships both raise [NoForeignKeysError] at
    [db.query(Appointment)], and [A] stays in the store. *)
Theorem delete_on_the_declared_mapping :
  get 1 Scenario.booked = Some Scenario.A
  /\ User.id Scenario.P1 = Appointment.patient_id Scenario.A
  /\ Mapped.delete_appointment declared_relationships 1 Scenario.P1 Scenario.booked
     = (inl (NoForeignKeysError "User.doctor_appointments"), Scenario.booked)
  /\ is_doctor_with_profile Scenario.D1 (Appointment.doctor_id Scenario.A) Scenario.booked
  /\ User.is_superuser Scenario.D1 = false
  /\ Mapped.delete_appointment declared_relationships 1 Scenario.D1 Scenario.booked
     = (inl (NoForeignKeysError "User.doctor_appointments"), Scenario.booked).
Proof.
  repeat split.
  exists Scenario.D1_profile. split; [left|]; reflexivity.
Qed.

(** ** Read and update *)

(** C9, at the scenario. D1 is the doctor of [A] and the administrator
    is a superuser; neither is its patient. The specification names the
    predicate that read and update share: the patient, the matching
    doctor, or a superuser. Both endpoints do end alike, but they turn
    D1 and the administrator away: on the declared relationships with
    [NoForeignKeysError], and once the mappers are configured with the
    [AttributeError] of [current_user.doctor_profile.id]. *)
Theorem read_and_update_by_doctor_and_superuser :
  is_doctor_with_profile Scenario.D1 (Appointment.doctor_id Scenario.A) Scenario.booked
  /\ User.is_superuser Scenario.admin = true
  /\ turned_away (Mapped.read_appointment declared_relationships 1 Scenario.D1
                    Scenario.booked) = Some mapping_error
  /\ turned_away (Mapped.update_appointment declared_relationships 1 Scenario.completed
                    Scenario.D1 Scenario.t1 Scenario.booked) = Some mapping_error
  /\ turned_away (Mapped.read_appointment declared_relationships 1 Scenario.admin
                    Scenario.booked) = Some mapping_error
  /\ turned_away (Mapped.update_appointment declared_relationships 1 Scenario.completed
                    Scenario.admin Scenario.t1 Scenario.booked) = Some mapping_error
  /\ turned_away (read_appointment 1 Scenario.D1 Scenario.booked) = Some no_id_on_list
  /\ turned_away (update_appointment 1 Scenario.completed Scenario.D1 Scenario.t1
                    Scenario.booked) = Some no_id_on_list
  /\ turned_away (read_appointment 1 Scenario.admin Scenario.booked) = Some no_id_on_list
  /\ turned_away (update_appointment 1 Scenario.completed Scenario.admin Scenario.t1
                    Scenario.booked) = Some no_id_on_list.
Proof.
  repeat split.
  exists Scenario.D1_profile. split; [left|]; reflexivity.
Qed.
